(** * google-flights-mcp: the tools of [server.py]

    A shallow embedding of [src/server.py] (the three MCP tools and their
    helpers) together with the properties of the range scan, the offer
    post-processing and the error reporting.

    Conventions of the embedding
    - a Python [str] is a [string] whose characters are the code points
      below 256; a Python [int] is a [Z];
    - a [datetime.date] is its proleptic Gregorian ordinal
      ([date.toordinal()]), a [Z] between [MINORDINAL] and [MAXORDINAL];
      date arithmetic outside that interval raises [OverflowError];
    - the payload handed to [json.dumps] is a [json] tree; the tools return
      that tree (serialisation itself is the standard library's);
    - [datetime.strptime], [date.strftime] and the provider [get_flights] of
      the [fast_flights] package are parameters of the tools; the provider is
      stateful (a world [W] is threaded through the calls) and may raise;
    - diagnostics printed to [sys.stderr] are not part of the model. *)

From Stdlib Require Import ZArith List String Ascii Bool Lia Permutation Sorted.
Import ListNotations.
#[local] Set Warnings "-register-all".
Open Scope string_scope.
Open Scope list_scope.
Open Scope Z_scope.

(* ------------------------------------------------------------------ *)
(** ** Python values carried by a flight and by the JSON payload *)

Inductive pyval : Type :=
| VNone
| VBool (b : bool)
| VInt (z : Z)
| VStr (s : string).

(** [a == b] on the values above; [bool] is a subclass of [int]. *)
Definition py_eq (a b : pyval) : bool :=
  match a, b with
  | VNone, VNone => true
  | VBool x, VBool y => Bool.eqb x y
  | VBool x, VInt y | VInt y, VBool x => Z.b2z x =? y
  | VInt x, VInt y => x =? y
  | VStr x, VStr y => String.eqb x y
  | _, _ => false
  end.

Inductive json : Type :=
| JNull
| JBool (b : bool)
| JInt (z : Z)
| JStr (s : string)
| JList (items : list json)
| JObj (fields : list (string * json)).

Definition json_of_pyval (v : pyval) : json :=
  match v with
  | VNone => JNull
  | VBool b => JBool b
  | VInt z => JInt z
  | VStr s => JStr s
  end.

(** The [Flight] dataclass of the provider: every attribute is present, any
    of them may hold [None]. *)
Record Flight : Type := mkFlight {
  is_best : pyval;
  name : pyval;
  departure : pyval;
  arrival : pyval;
  arrival_time_ahead : pyval;
  duration : pyval;
  stops : pyval;
  delay : pyval;
  price : pyval
}.

Definition flight_to_dict (flight : Flight) : json :=
  JObj [ ("is_best", json_of_pyval (is_best flight));
         ("name", json_of_pyval (name flight));
         ("departure", json_of_pyval (departure flight));
         ("arrival", json_of_pyval (arrival flight));
         ("arrival_time_ahead", json_of_pyval (arrival_time_ahead flight));
         ("duration", json_of_pyval (duration flight));
         ("stops", json_of_pyval (stops flight));
         ("delay", json_of_pyval (delay flight));
         ("price", json_of_pyval (price flight)) ].

(* ------------------------------------------------------------------ *)
(** ** Strings *)

Module Str.

(** [s.replace(c, '')] for a one-character [c]. *)
Fixpoint remove_char (c : ascii) (s : string) : string :=
  match s with
  | EmptyString => EmptyString
  | String a rest =>
      if Ascii.eqb a c then remove_char c rest
      else String a (remove_char c rest)
  end.

(** [s[:n]] for [0 <= n]. *)
Definition take (n : nat) (s : string) : string := substring 0 n s.

Fixpoint mem_char (c : ascii) (s : string) : bool :=
  match s with
  | EmptyString => false
  | String a rest => Ascii.eqb a c || mem_char c rest
  end.

Definition is_digit (c : ascii) : bool :=
  let n := Z.of_nat (nat_of_ascii c) in (48 <=? n) && (n <=? 57).

Definition digit_val (c : ascii) : Z := Z.of_nat (nat_of_ascii c) - 48.

(** The white space [int()] skips around a number: tab, line feed,
    vertical tab, form feed, carriage return and space, and the two other
    white space characters below 256, next line (133) and no-break space
    (160). *)
Definition is_space (c : ascii) : bool :=
  let n := Z.of_nat (nat_of_ascii c) in
  ((9 <=? n) && (n <=? 13)) || (n =? 32) || (n =? 133) || (n =? 160).

Fixpoint lstrip (s : string) : string :=
  match s with
  | String a rest => if is_space a then lstrip rest else s
  | EmptyString => EmptyString
  end.

(** Digits with single underscores between them, read most significant
    first; [seen] tells whether the previous character was a digit, [acc]
    is the value read so far.  Trailing white space is accepted. *)
Fixpoint digits (seen : bool) (acc : Z) (s : string) : option Z :=
  match s with
  | EmptyString => if seen then Some acc else None
  | String a rest =>
      if is_digit a then digits true (10 * acc + digit_val a) rest
      else if Ascii.eqb a "_" then
        (if seen then
           match rest with
           | String b _ => if is_digit b then digits false acc rest else None
           | EmptyString => None
           end
         else None)
      else if is_space a then
        (if seen then
           match lstrip rest with
           | EmptyString => Some acc
           | _ => None
           end
         else None)
      else None
  end.

(** [sys.get_int_max_str_digits()] as the interpreter starts: [int()]
    refuses a numeral of more decimal digits. *)
Definition INT_MAX_STR_DIGITS : Z := 4300.

Fixpoint count_digits (s : string) : Z :=
  match s with
  | EmptyString => 0
  | String a rest =>
      (if is_digit a then 1 else 0) + count_digits rest
  end.

(** [int(s)] on a [str]: [None] stands for [ValueError]. *)
Definition py_int (s : string) : option Z :=
  if count_digits s <=? INT_MAX_STR_DIGITS then
    match lstrip s with
    | String "+" rest => digits false 0 rest
    | String "-" rest => option_map Z.opp (digits false 0 rest)
    | t => digits false 0 t
    end
  else None.

Fixpoint repeat_char (c : ascii) (n : nat) : string :=
  match n with
  | O => EmptyString
  | S k => String c (repeat_char c k)
  end.

End Str.

(* ------------------------------------------------------------------ *)
(** ** Prices *)

(** The value [parse_price] returns: an [int], or [float('inf')]. *)
Inductive price_key : Type :=
| Fin (z : Z)
| Inf.

Definition parse_price (price_str : pyval) : price_key :=
  match price_str with
  | VStr s =>
      if String.eqb s "" then Inf
      else match Str.py_int (Str.remove_char "," (Str.remove_char "$" s)) with
           | Some z => Fin z
           | None => Inf
           end
  | _ => Inf
  end.

(** [a < b] between two keys, as Python compares an [int] with [inf]. *)
Definition key_ltb (a b : price_key) : bool :=
  match a, b with
  | Fin x, Fin y => x <? y
  | Fin _, Inf => true
  | Inf, _ => false
  end.

Definition key_le (a b : price_key) : Prop := key_ltb b a = false.


Definition is_fin (k : price_key) : bool :=
  match k with Fin _ => true | Inf => false end.

(** [sorted(l, key=key)]: the stable ascending sort.  The elements are
    inserted from the right; each one goes past the elements of strictly
    smaller key and stops before the first key that is not smaller, so that
    equal keys keep their original order, which is what Python guarantees of
    [sorted].  Only [<] on keys is used, as in Python. *)
Section Sorted.
Context {A : Type} (key : A -> price_key).

Fixpoint insert_by (x : A) (l : list A) : list A :=
  match l with
  | [] => [x]
  | y :: rest =>
      if key_ltb (key y) (key x) then y :: insert_by x rest
      else x :: l
  end.

Fixpoint sorted (l : list A) : list A :=
  match l with
  | [] => []
  | x :: rest => insert_by x (sorted rest)
  end.
End Sorted.

(** [l[:limit]]: all of [l] for [None], the first [limit] items for a
    non-negative [limit], all but the last [-limit] for a negative one. *)
Definition slice_to {A : Type} (l : list A) (limit : option Z) : list A :=
  match limit with
  | None => l
  | Some n =>
      if 0 <=? n then firstn (Z.to_nat n) l
      else firstn (Z.to_nat (Z.of_nat (List.length l) + n)) l
  end.

(** Lines 114-116 (and 191-193, 320-322): the stop-count filter. *)
Definition filter_stops (stops_arg : option Z) (flights_list : list Flight)
  : list Flight :=
  match stops_arg with
  | Some k => filter (fun f => py_eq (stops f) (VInt k)) flights_list
  | None => flights_list
  end.

(** Lines 118-119 (and 195-196, 324-325). *)
Definition sort_flights (sort_cheapest : bool) (flights_list : list Flight)
  : list Flight :=
  if sort_cheapest then sorted (fun f => parse_price (price f)) flights_list
  else flights_list.

(** [result.flights if result and result.flights else []]: the provider's
    result is [None] or carries a list of flights. *)
Definition flights_of (result : option (list Flight)) : list Flight :=
  match result with
  | Some l => l
  | None => []
  end.

(* ------------------------------------------------------------------ *)
(** ** Dates *)

Module Calendar.

(** [date.min.toordinal()] and [date.max.toordinal()] (9999-12-31). *)
Definition MINORDINAL : Z := 1.
Definition MAXORDINAL : Z := 3652059.

(** [d + timedelta(days=n)]: [None] stands for [OverflowError]
    ("date value out of range"). *)
Definition add_days (d n : Z) : option Z :=
  let o := d + n in
  if (MINORDINAL <=? o) && (o <=? MAXORDINAL) then Some o else None.

(** [(r - d).days] *)
Definition days_between (r d : Z) : Z := r - d.

Definition is_leap (y : Z) : bool :=
  (y mod 4 =? 0) && (negb (y mod 100 =? 0) || (y mod 400 =? 0)).

Definition days_in_month (y m : Z) : Z :=
  if m =? 2 then (if is_leap y then 29 else 28)
  else if (m =? 4) || (m =? 6) || (m =? 9) || (m =? 11) then 30
  else 31.

Definition days_before_year (y : Z) : Z :=
  let p := y - 1 in p * 365 + p / 4 - p / 100 + p / 400.

Fixpoint days_before_month_aux (y : Z) (k : nat) : Z :=
  match k with
  | O => 0
  | S j => days_before_month_aux y j + days_in_month y (Z.of_nat k)
  end.

Definition days_before_month (y m : Z) : Z :=
  days_before_month_aux y (Z.to_nat (m - 1)).

(** [date(y, m, d)]: [None] stands for [ValueError]. *)
Definition ymd2ord (y m d : Z) : option Z :=
  if (1 <=? y) && (y <=? 9999) && (1 <=? m) && (m <=? 12)
     && (1 <=? d) && (d <=? days_in_month y m)
  then Some (days_before_year y + days_before_month y m + d)
  else None.

(** The year, month and day of an ordinal. *)
Definition ord2ymd (o : Z) : Z * Z * Z :=
  let n := o - 1 in
  let n400 := n / 146097 in
  let n := n mod 146097 in
  let n100 := n / 36524 in
  let n := n mod 36524 in
  let n4 := n / 1461 in
  let n := n mod 1461 in
  let n1 := n / 365 in
  let n := n mod 365 in
  let year := n400 * 400 + 1 + n100 * 100 + n4 * 4 + n1 in
  if (n1 =? 4) || (n100 =? 4) then (year - 1, 12, 31)
  else
    let leapyear := (n1 =? 3) && (negb (n4 =? 24) || (n100 =? 3)) in
    let month := Z.shiftr (n + 50) 5 in
    let preceding :=
      days_before_month 1 month
      + (if (2 <? month) && leapyear then 1 else 0) in
    if n <? preceding then
      let month := month - 1 in
      let preceding :=
        preceding - (days_in_month 1 month
                     + (if (month =? 2) && leapyear then 1 else 0)) in
      (year, month, n - preceding + 1)
    else (year, month, n - preceding + 1).

End Calendar.

(* ------------------------------------------------------------------ *)
(** ** The provider interface *)

(** An exception instance, as far as the tools look at it:
    [type(e).__name__], whether it is a [ValueError] (or a subclass), and
    [str(e)].  Only subclasses of [Exception] are modelled. *)
Record exn : Type := mkExn {
  exn_type : string;
  exn_is_value_error : bool;
  exn_str : string
}.

Inductive outcome (A : Type) : Type :=
| Return (a : A)
| Raise (e : exn).
Arguments Return {A} a.
Arguments Raise {A} e.

Record FlightData : Type := mkFlightData {
  fd_date : string;
  from_airport : string;
  to_airport : string
}.

(** What one provider round receives: the legs, the trip kind, the seat and
    [Passengers(adults=adults)].  Building the [FlightData] and [Passengers]
    objects happens inside the same [try] as the call, so a failure of
    theirs is a failure of the round. *)
Record query : Type := mkQuery {
  flight_data : list FlightData;
  trip : string;
  seat : string;
  passengers_adults : Z
}.

(** How a tool call ends: with the payload it returns, with an exception
    that no handler of the tool catches, or out of fuel. *)
Inductive run (A : Type) : Type :=
| Done (a : A)
| Uncaught (type_name : string)
| Stuck.
Arguments Done {A} a.
Arguments Uncaught {A} type_name.
Arguments Stuck {A}.

Definition error_payload (message type_name : string) : json :=
  JObj [("error", JObj [("message", JStr message); ("type", JStr type_name)])].

Definition nonempty {A : Type} (l : list A) : bool :=
  match l with [] => false | _ :: _ => true end.

(** [list(enumerate(l))] *)
Definition enumerate {A : Type} (l : list A) : list (nat * A) :=
  combine (seq 0 (List.length l)) l.

(** Lines 286-291. *)
Definition valid_stay (min_stay_days max_stay_days : option Z)
  (stay_duration : Z) : bool :=
  let valid := true in
  let valid :=
    match min_stay_days with
    | Some m => if stay_duration <? m then false else valid
    | None => valid
    end in
  let valid :=
    match max_stay_days with
    | Some m => if stay_duration >? m then false else valid
    | None => valid
    end in
  valid.

(** Lines 283-295: the two nested loops over [date_list]. *)
Definition date_pairs_to_check (date_list : list Z)
  (min_stay_days max_stay_days : option Z) : list (Z * Z) :=
  flat_map
    (fun '(i, depart_date) =>
       flat_map
         (fun '(j, return_date) =>
            let stay_duration := Calendar.days_between return_date depart_date in
            if valid_stay min_stay_days max_stay_days stay_duration
            then [(depart_date, return_date)] else [])
         (enumerate (skipn i date_list)))
    (enumerate date_list).

(** Lines 273-277: the [while] loop that fills [date_list].  The increment
    follows the append, also for the last date of the window. *)
Fixpoint date_list_loop (fuel : nat) (current_date end_date : Z)
  (date_list : list Z) : run (list Z) :=
  if current_date <=? end_date then
    match fuel with
    | O => Stuck
    | S fuel' =>
        let date_list := date_list ++ [current_date] in
        match Calendar.add_days current_date 1 with
        | None => Uncaught "OverflowError"
        | Some next => date_list_loop fuel' next end_date date_list
        end
    end
  else Done date_list.

Definition build_date_list (start_date end_date : Z) : run (list Z) :=
  date_list_loop (Z.to_nat (end_date - start_date + 1)) start_date end_date [].

(** Lines 125-127 and 202-204: the replies when no flight is left. *)
Definition no_flights_message (origin destination date : string) : json :=
  JObj [("message",
         JStr ("No flights found for " ++ origin ++ " -> " ++ destination
               ++ " on " ++ date ++ ".")%string)].

Definition no_round_trip_message
  (origin destination departure_date return_date : string) : json :=
  JObj [("message",
         JStr ("No round trip flights found for " ++ origin ++ " <-> "
               ++ destination ++ " from " ++ departure_date ++ " to "
               ++ return_date ++ ".")%string)].

(** Lines 101-104: the one-leg query of [get_flights_on_date]. *)
Definition one_way_query (origin destination date : string) (adults : Z)
  (seat_type : string) : query :=
  {| flight_data := [mkFlightData date origin destination];
     trip := "one-way"; seat := seat_type; passengers_adults := adults |}.

(** Lines 177-181 and 306-310: outbound leg first, then the inbound leg. *)
Definition round_trip_query
  (origin destination departure_date return_date : string) (adults : Z)
  (seat_type : string) : query :=
  {| flight_data := [mkFlightData departure_date origin destination;
                     mkFlightData return_date destination origin];
     trip := "round-trip"; seat := seat_type; passengers_adults := adults |}.

Section Tools.

(** [datetime.datetime.strptime(s, '%Y-%m-%d').date()], [None] standing
    for [ValueError], and [d.strftime('%Y-%m-%d')]. *)
Variable strptime : string -> option Z.
Variable strftime : Z -> string.

(** The provider and the state of the world it reads and changes. *)
Variable W : Type.
Variable get_flights : query -> W -> outcome (option (list Flight)) * W.

(** The world together with the log of the rounds made so far. *)
Record provider_state : Type := mkProviderState {
  world : W;
  calls : list query
}.

Definition call_provider (q : query) (st : provider_state)
  : outcome (option (list Flight)) * provider_state :=
  let (r, w) := get_flights q (world st) in
  (r, {| world := w; calls := calls st ++ [q] |}).

(** Lines 113-120, 190-197 and 319-326: what each tool does with the
    provider's result. *)
Definition filtered_flights (result : option (list Flight))
  (stops_arg : option Z) (sort_cheapest : bool) : list Flight :=
  sort_flights sort_cheapest (filter_stops stops_arg (flights_of result)).

Definition processed_flights (flights_list : list Flight) (limit : option Z)
  : list json :=
  map flight_to_dict (slice_to flights_list limit).

Definition get_flights_on_date (origin destination date : string)
  (adults : Z) (seat_type : string) (sort_cheapest : bool)
  (stops_arg limit : option Z) (st : provider_state)
  : json * provider_state :=
  match strptime date with
  | None =>
      (error_payload
         ("Invalid date format: '" ++ date ++ "'. Please use YYYY-MM-DD.")%string
         "ValueError", st)
  | Some _ =>
      match call_provider
              (one_way_query origin destination date adults seat_type) st with
      | (Return result, st') =>
          let flights_list := filtered_flights result stops_arg sort_cheapest in
          let output_data :=
            JObj [("flights", JList (processed_flights flights_list limit))] in
          if nonempty flights_list then (output_data, st')
          else (no_flights_message origin destination date, st')
      | (Raise e, st') =>
          if exn_is_value_error e then
            (error_payload
               ("Invalid date format: '" ++ date ++ "'. Please use YYYY-MM-DD.")%string%string
               "ValueError", st')
          else
            (error_payload "An unexpected error occurred." (exn_type e), st')
      end
  end.

Definition get_round_trip_flights
  (origin destination departure_date return_date : string)
  (adults : Z) (seat_type : string) (sort_cheapest : bool)
  (stops_arg limit : option Z) (st : provider_state)
  : json * provider_state :=
  let invalid :=
    error_payload "Invalid date format provided. Use YYYY-MM-DD." "ValueError" in
  match strptime departure_date with
  | None => (invalid, st)
  | Some _ =>
  match strptime return_date with
  | None => (invalid, st)
  | Some _ =>
      match call_provider
              (round_trip_query origin destination departure_date return_date
                 adults seat_type) st with
      | (Return result, st') =>
          let flights_list := filtered_flights result stops_arg sort_cheapest in
          let output_data :=
            JObj [("round_trip_options",
                   JList (processed_flights flights_list limit))] in
          if nonempty flights_list then (output_data, st')
          else
            (no_round_trip_message origin destination departure_date
               return_date, st')
      | (Raise e, st') =>
          if exn_is_value_error e then (invalid, st')
          else
            (error_payload "An unexpected error occurred." (exn_type e), st')
      end
  end
  end.

(** *** The range scan *)

Record scan_state : Type := mkScanState {
  results_data : list json;
  error_messages : list string;
  provider : provider_state
}.

(** Line 337. *)
Definition err_msg (depart_date return_date : Z) (e : exn) : string :=
  ("Error fetching flights for " ++ strftime depart_date ++ " -> "
   ++ strftime return_date ++ ": " ++ exn_type e
   ++ ". Check server logs for details: " ++ Str.take 100 (exn_str e)
   ++ "...")%string.

Definition range_query (origin destination : string) (adults : Z)
  (seat_type : string) (pair : Z * Z) : query :=
  let (depart_date, return_date) := pair in
  round_trip_query origin destination (strftime depart_date)
    (strftime return_date) adults seat_type.

Definition mem_string (x : string) (l : list string) : bool :=
  existsb (String.eqb x) l.

(** Lines 300-339: one round of the [for] loop over the date pairs. *)
Definition scan_step (origin destination : string) (adults : Z)
  (seat_type : string) (sort_cheapest : bool) (stops_arg limit : option Z)
  (st : scan_state) (pair : Z * Z) : scan_state :=
  let (depart_date, return_date) := pair in
  match call_provider (range_query origin destination adults seat_type pair)
          (provider st) with
  | (Return result, p) =>
      let flights_list := filtered_flights result stops_arg sort_cheapest in
      {| results_data :=
           results_data st ++
             [JObj [("departure_date", JStr (strftime depart_date));
                    ("return_date", JStr (strftime return_date));
                    ("flights", JList (processed_flights flights_list limit))]];
         error_messages := error_messages st;
         provider := p |}
  | (Raise e, p) =>
      let m := err_msg depart_date return_date e in
      {| results_data := results_data st;
         error_messages :=
           if mem_string m (error_messages st) then error_messages st
           else error_messages st ++ [m];
         provider := p |}
  end.

Definition scan (origin destination : string) (adults : Z)
  (seat_type : string) (sort_cheapest : bool) (stops_arg limit : option Z)
  (pairs : list (Z * Z)) (st : scan_state) : scan_state :=
  fold_left
    (scan_step origin destination adults seat_type sort_cheapest stops_arg limit)
    pairs st.

Definition errors_encountered (error_messages : list string) : json :=
  if nonempty error_messages then JList (map JStr error_messages) else JNull.

(** Lines 344-356. *)
Definition report (origin destination start_date_str end_date_str : string)
  (st : scan_state) : json :=
  if nonempty (results_data st) || nonempty (error_messages st) then
    JObj [("all_round_trip_options", JList (results_data st));
          ("errors_encountered", errors_encountered (error_messages st))]
  else
    JObj [("message",
           JStr ("No flights found and no errors encountered for " ++ origin
                 ++ " -> " ++ destination ++ " in the range "
                 ++ start_date_str ++ " to " ++ end_date_str ++ ".")%string);
          ("errors_encountered", errors_encountered (error_messages st))].

Definition find_all_flights_in_range
  (origin destination start_date_str end_date_str : string)
  (min_stay_days max_stay_days : option Z) (adults : Z) (seat_type : string)
  (sort_cheapest : bool) (stops_arg limit : option Z) (st : provider_state)
  : run json * provider_state :=
  let invalid :=
    error_payload "Invalid date format. Use YYYY-MM-DD." "ValueError" in
  match strptime start_date_str with
  | None => (Done invalid, st)
  | Some start_date =>
  match strptime end_date_str with
  | None => (Done invalid, st)
  | Some end_date =>
      if start_date >? end_date then
        (Done (error_payload "Start date cannot be after end date." "ValueError"),
         st)
      else
        match build_date_list start_date end_date with
        | Uncaught t => (Uncaught t, st)
        | Stuck => (Stuck, st)
        | Done date_list =>
            if negb (nonempty date_list) then
              (Done (JObj [("error",
                            JStr "No valid dates in the specified range.")]),
               st)
            else
              let date_pairs :=
                date_pairs_to_check date_list min_stay_days max_stay_days in
              let final :=
                scan origin destination adults seat_type sort_cheapest
                  stops_arg limit date_pairs
                  {| results_data := []; error_messages := []; provider := st |} in
              (Done (report origin destination start_date_str end_date_str final),
               provider final)
        end
  end
  end.

End Tools.

Arguments world {W} _.
Arguments calls {W} _.
Arguments results_data {W} _.
Arguments error_messages {W} _.
Arguments provider {W} _.
Arguments call_provider {W} get_flights q st.

(* ------------------------------------------------------------------ *)
(** ** A reference instance of the parameters *)

(** [strptime] with the format ['%Y-%m-%d'] as CPython's [_strptime] reads
    it on ASCII input (four digits, then a month and a day of one or two
    digits, nothing after the day), [strftime] for the same format as the C
    library renders it (the year without padding, month and day on two
    digits), and a provider that plays a script. *)
Module Iso.

Import Str Calendar.

Definition in_range (lo hi : Z) (c : ascii) : bool :=
  let n := Z.of_nat (nat_of_ascii c) in (lo <=? n) && (n <=? hi).

(** [(?P<m>1[0-2]|0[1-9]|[1-9])] *)
Definition month_field (s : string) : option (Z * string) :=
  match s with
  | String a (String b rest) =>
      if Ascii.eqb a "1" && in_range 48 50 b then Some (10 + digit_val b, rest)
      else if Ascii.eqb a "0" && in_range 49 57 b then Some (digit_val b, rest)
      else if in_range 49 57 a then Some (digit_val a, String b rest)
      else None
  | String a EmptyString =>
      if in_range 49 57 a then Some (digit_val a, EmptyString) else None
  | EmptyString => None
  end.

(** [(?P<d>3[0-1]|[1-2]\d|0[1-9]|[1-9]| [1-9])] *)
Definition day_field (s : string) : option (Z * string) :=
  match s with
  | String a (String b rest) =>
      if Ascii.eqb a "3" && in_range 48 49 b then Some (30 + digit_val b, rest)
      else if in_range 49 50 a && is_digit b
           then Some (10 * digit_val a + digit_val b, rest)
      else if Ascii.eqb a "0" && in_range 49 57 b then Some (digit_val b, rest)
      else if in_range 49 57 a then Some (digit_val a, String b rest)
      else if Ascii.eqb a " " && in_range 49 57 b then Some (digit_val b, rest)
      else None
  | String a EmptyString =>
      if in_range 49 57 a then Some (digit_val a, EmptyString) else None
  | EmptyString => None
  end.

Definition strptime (s : string) : option Z :=
  match s with
  | String y1 (String y2 (String y3 (String y4 (String "-" rest)))) =>
      if is_digit y1 && is_digit y2 && is_digit y3 && is_digit y4 then
        let y := 1000 * digit_val y1 + 100 * digit_val y2
                 + 10 * digit_val y3 + digit_val y4 in
        match month_field rest with
        | Some (m, String "-" rest') =>
            match day_field rest' with
            | Some (d, EmptyString) => ymd2ord y m d
            | _ => None
            end
        | _ => None
        end
      else None
  | _ => None
  end.

Definition digit_char (d : Z) : ascii := ascii_of_nat (Z.to_nat (48 + d mod 10)).

Definition pad2 (n : Z) : string :=
  String (digit_char (n / 10)) (String (digit_char n) EmptyString).

(** [%Y]: the decimal digits of a year of the calendar, none added. *)
Definition year_digits (y : Z) : string :=
  if y <? 10 then String (digit_char y) EmptyString
  else if y <? 100 then pad2 y
  else if y <? 1000 then String (digit_char (y / 100)) (pad2 (y mod 100))
  else (pad2 (y / 100) ++ pad2 (y mod 100))%string.

Definition strftime (d : Z) : string :=
  let '(y, m, dd) := ord2ymd d in
  (year_digits y ++ "-" ++ pad2 m ++ "-" ++ pad2 dd)%string.

(** The world of the scripted provider: the outcomes of the rounds still to
    come.  A round past the end of the script returns no result. *)
Definition script : Type := list (outcome (option (list Flight))).

Definition get_flights (q : query) (w : script)
  : outcome (option (list Flight)) * script :=
  match w with
  | [] => (Return None, [])
  | o :: rest => (o, rest)
  end.

Definition start (w : script) : provider_state script :=
  {| world := w; calls := [] |}.

(** A flight of which only the stop count and the price matter. *)
Definition flight (stops_v price_v : pyval) : Flight :=
  {| is_best := VBool false; name := VStr "XY"; departure := VNone;
     arrival := VNone; arrival_time_ahead := VStr ""; duration := VNone;
     stops := stops_v; delay := VNone; price := price_v |}.

End Iso.

(* ------------------------------------------------------------------ *)
(** ** Vocabulary of the statements *)

(** The [n] consecutive dates from [s] on, and the window [start..end]. *)
Fixpoint zrange (s : Z) (n : nat) : list Z :=
  match n with
  | O => []
  | S k => s :: zrange (s + 1) k
  end.

Definition date_range (start_date end_date : Z) : list Z :=
  zrange start_date (Z.to_nat (end_date - start_date + 1)).

(** A stay satisfies the bounds that are configured, both inclusive. *)
Definition stay_ok (min_stay_days max_stay_days : option Z) (stay : Z) : Prop :=
  (forall m, min_stay_days = Some m -> m <= stay)
  /\ (forall m, max_stay_days = Some m -> stay <= m).

(** Departure date ascending, then return date ascending. *)
Definition pair_lt (p q : Z * Z) : Prop :=
  fst p < fst q \/ (fst p = fst q /\ snd p < snd q).

(** Each date of [l] paired by [K] with the dates from itself on. *)
Fixpoint suffix_pairs {B : Type} (K : list Z -> Z -> list B) (l : list Z)
  : list B :=
  match l with
  | [] => []
  | d :: rest => K l d ++ suffix_pairs K rest
  end.

(** The error messages of a run of outcomes, first occurrences only, in the
    order in which they first occur. *)
Fixpoint first_occurrences (seen l : list string) : list string :=
  match l with
  | [] => []
  | m :: rest =>
      if existsb (String.eqb m) seen then first_occurrences seen rest
      else m :: first_occurrences (seen ++ [m]) rest
  end.

(** [s] occurs in [t] word for word. *)
Definition occurs_in (s t : string) : Prop :=
  exists a b : string, t = (a ++ s ++ b)%string.

(** The outcomes of the provider when it is asked [qs] one after the other,
    and the world it leaves. *)
Fixpoint provider_trace {W : Type}
  (get_flights : query -> W -> outcome (option (list Flight)) * W)
  (qs : list query) (w : W) : list (outcome (option (list Flight))) * W :=
  match qs with
  | [] => ([], w)
  | q :: rest =>
      let (o, w1) := get_flights q w in
      let (os, w2) := provider_trace get_flights rest w1 in
      (o :: os, w2)
  end.

Definition is_raise {A : Type} (o : outcome A) : bool :=
  match o with Raise _ => true | Return _ => false end.

(** The entry of the report for a pair on which the provider returned. *)
Definition scan_entry (strftime : Z -> string) (sort_cheapest : bool)
  (stops_arg limit : option Z) (pair : Z * Z) (result : option (list Flight))
  : json :=
  JObj [("departure_date", JStr (strftime (fst pair)));
        ("return_date", JStr (strftime (snd pair)));
        ("flights",
         JList (processed_flights
                  (filtered_flights result stops_arg sort_cheapest) limit))].

(** The entries of the pairs that succeeded and the messages of those that
    failed, both in the order of the pairs. *)
Definition entries_of (strftime : Z -> string) (sort_cheapest : bool)
  (stops_arg limit : option Z)
  (l : list ((Z * Z) * outcome (option (list Flight)))) : list json :=
  flat_map
    (fun po =>
       match snd po with
       | Return result =>
           [scan_entry strftime sort_cheapest stops_arg limit (fst po) result]
       | Raise _ => []
       end) l.

Definition messages_of (strftime : Z -> string)
  (l : list ((Z * Z) * outcome (option (list Flight)))) : list string :=
  flat_map
    (fun po =>
       match snd po with
       | Return _ => []
       | Raise e => [err_msg strftime (fst (fst po)) (snd (fst po)) e]
       end) l.

(** Reading a reply: the value under a key, and the items of a list. *)
Definition field (k : string) (j : json) : option json :=
  match j with
  | JObj fields =>
      option_map snd (find (fun kv => String.eqb (fst kv) k) fields)
  | _ => None
  end.

Definition items (j : option json) : list json :=
  match j with
  | Some (JList l) => l
  | _ => []
  end.

(* ------------------------------------------------------------------ *)
(** ** The month helper *)

(** [datetime.date(year, month, day)]: the arguments are first converted to
    C [int]s, which raises [OverflowError] outside 32 bits, and then
    checked, which raises [ValueError]. *)
Inductive date_result : Type :=
| DateOk (ordinal : Z)
| DateValueError
| DateOverflowError.

Definition fits_c_int (z : Z) : bool := (- 2 ^ 31 <=? z) && (z <? 2 ^ 31).

Definition py_date (year month day : Z) : date_result :=
  if fits_c_int year && fits_c_int month && fits_c_int day then
    match Calendar.ymd2ord year month day with
    | Some o => DateOk o
    | None => DateValueError
    end
  else DateOverflowError.

(** Lines 48-63.  The function is a generator; its model is what a full
    iteration yields.  The [return []] of the handler ends the generator, so
    a [ValueError] yields nothing; any other exception leaves the generator.
    The loop of lines 60-63 has the shape of [date_list_loop], the [yield]
    taking the place of the [append]. *)
Definition get_date_range (year month : Z) : run (list Z) :=
  match py_date year month 1 with
  | DateValueError => Done []
  | DateOverflowError => Uncaught "OverflowError"
  | DateOk start_date =>
      match (if month =? 12 then py_date (year + 1) 1 1
             else py_date year (month + 1) 1) with
      | DateValueError => Done []
      | DateOverflowError => Uncaught "OverflowError"
      | DateOk first_of_next =>
          match Calendar.add_days first_of_next (-1) with
          | None => Uncaught "OverflowError"
          | Some end_date =>
              date_list_loop (Z.to_nat (end_date - start_date + 1))
                start_date end_date []
          end
      end
  end.

(* ------------------------------------------------------------------ *)
(** ** More vocabulary *)

Fixpoint all_chars (p : ascii -> bool) (s : string) : bool :=
  match s with
  | EmptyString => true
  | String c rest => p c && all_chars p rest
  end.

Fixpoint any_char (p : ascii -> bool) (s : string) : bool :=
  match s with
  | EmptyString => false
  | String c rest => p c || any_char p rest
  end.

(** The number spelled by the decimal digits of [s], read in order, the
    other characters skipped; [acc] is the number read so far. *)
Fixpoint digits_value (acc : Z) (s : string) : Z :=
  match s with
  | EmptyString => acc
  | String c rest =>
      if Str.is_digit c then digits_value (10 * acc + Str.digit_val c) rest
      else digits_value acc rest
  end.

(** The characters of a price written with a currency sign and group
    separators, and the characters a price that parses can hold at all. *)
Definition is_price_char (c : ascii) : bool :=
  Str.is_digit c || Ascii.eqb c "$" || Ascii.eqb c ",".

Definition is_int_char (c : ascii) : bool :=
  Str.is_digit c || Str.is_space c || Ascii.eqb c "+" || Ascii.eqb c "-"
  || Ascii.eqb c "_".

Definition is_number_char (c : ascii) : bool :=
  Str.is_digit c || Str.is_space c || Ascii.eqb c "+" || Ascii.eqb c "-"
  || Ascii.eqb c "_" || Ascii.eqb c "$" || Ascii.eqb c ",".

(** The keys of a reply document, in order. *)
Definition top_keys (j : json) : list string :=
  match j with
  | JObj fields => map fst fields
  | _ => []
  end.

(** Whether the provider raised on a query. *)
Definition raised {W : Type}
  (get_flights : query -> W -> outcome (option (list Flight)) * W)
  (q : query) (w : W) : bool :=
  is_raise (fst (get_flights q w)).

(** The number of days of the window and the stays it allows. *)
Definition window_days (start_date end_date : Z) : Z := end_date - start_date + 1.

(* ------------------------------------------------------------------ *)
(** * Properties *)

(** ** The order on price keys *)

Lemma key_ltb_asym (a b : price_key) : key_ltb a b = true -> key_le a b.
Proof.
  unfold key_le. destruct a, b; simpl; intros H; try reflexivity; try discriminate.
  apply Z.ltb_lt in H. apply Z.ltb_ge. lia.
Qed.

Lemma key_le_trans (a b c : price_key) : key_le a b -> key_le b c -> key_le a c.
Proof.
  unfold key_le. destruct a, b, c; simpl; try reflexivity; try discriminate.
  rewrite !Z.ltb_ge. lia.
Qed.





(** ** The stable sort *)

Section SortedFacts.
Context {A : Type} (key : A -> price_key).

Let le_by (a b : A) : Prop := key_le (key a) (key b).

Lemma insert_by_perm (x : A) (l : list A) :
  Permutation (x :: l) (insert_by key x l).
Proof.
  induction l as [|y rest IH]; simpl.
  - apply Permutation_refl.
  - destruct (key_ltb (key y) (key x)).
    + eapply perm_trans; [apply perm_swap|]. now apply perm_skip.
    + apply Permutation_refl.
Qed.


Lemma insert_by_sorted (x : A) (l : list A) :
  StronglySorted le_by l -> StronglySorted le_by (insert_by key x l).
Proof.
  induction 1 as [|y rest Hs IH Hall]; simpl.
  - repeat constructor.
  - destruct (key_ltb (key y) (key x)) eqn:E.
    + constructor; [exact IH|].
      eapply Permutation_Forall; [apply insert_by_perm|].
      constructor; [|exact Hall].
      now apply key_ltb_asym.
    + constructor; [now constructor|].
      constructor; [exact E|].
      eapply Forall_impl; [|exact Hall].
      intros z Hz. unfold le_by in *. eapply key_le_trans; [exact E|exact Hz].
Qed.

Lemma sorted_sorted (l : list A) : StronglySorted le_by (sorted key l).
Proof.
  induction l as [|x rest IH]; simpl.
  - constructor.
  - now apply insert_by_sorted.
Qed.





End SortedFacts.

(** ** What a price parses to *)

Lemma remove_char_all (p : ascii -> bool) (c : ascii) (s : string) :
  all_chars p s = true -> all_chars p (Str.remove_char c s) = true.
Proof.
  induction s as [|a s IH]; cbn; [reflexivity|].
  intros H. apply andb_true_iff in H. destruct H as [Ha Hs].
  destruct (Ascii.eqb a c); cbn; [now apply IH|]. now rewrite Ha, IH.
Qed.

Lemma remove_char_absent (c : ascii) (s : string) :
  Str.mem_char c (Str.remove_char c s) = false.
Proof.
  induction s as [|a s IH]; cbn; [reflexivity|].
  destruct (Ascii.eqb a c) eqn:E; cbn; [exact IH|]. now rewrite E, IH.
Qed.

Lemma remove_char_keeps (c d : ascii) (s : string) :
  Ascii.eqb d c = false ->
  Str.mem_char d (Str.remove_char c s) = Str.mem_char d s.
Proof.
  intros Hd. induction s as [|a s IH]; cbn; [reflexivity|].
  destruct (Ascii.eqb a c) eqn:E; cbn.
  - apply Ascii.eqb_eq in E. subst a.
    rewrite IH. rewrite Ascii.eqb_sym, Hd. reflexivity.
  - now rewrite IH.
Qed.

Lemma remove_char_digits_value (c : ascii) (acc : Z) (s : string) :
  Str.is_digit c = false ->
  digits_value acc (Str.remove_char c s) = digits_value acc s.
Proof.
  intros Hc. revert acc. induction s as [|a s IH]; intros acc; cbn; [reflexivity|].
  destruct (Ascii.eqb a c) eqn:E; cbn.
  - apply Ascii.eqb_eq in E. subst a. now rewrite Hc.
  - destruct (Str.is_digit a); apply IH.
Qed.

Lemma remove_char_any_digit (c : ascii) (s : string) :
  Str.is_digit c = false ->
  any_char Str.is_digit (Str.remove_char c s) = any_char Str.is_digit s.
Proof.
  intros Hc. induction s as [|a s IH]; cbn; [reflexivity|].
  destruct (Ascii.eqb a c) eqn:E; cbn.
  - apply Ascii.eqb_eq in E. subst a. now rewrite Hc.
  - now rewrite IH.
Qed.

Lemma remove_char_count_digits (c : ascii) (s : string) :
  Str.is_digit c = false ->
  Str.count_digits (Str.remove_char c s) = Str.count_digits s.
Proof.
  intros Hc. induction s as [|a s IH]; cbn; [reflexivity|].
  destruct (Ascii.eqb a c) eqn:E; cbn.
  - apply Ascii.eqb_eq in E. subst a. rewrite Hc. exact IH.
  - now rewrite IH.
Qed.

Lemma digits_all_digits (s : string) :
  forall (seen : bool) (acc : Z),
    all_chars Str.is_digit s = true ->
    Str.digits seen acc s
    = match s with
      | EmptyString => if seen then Some acc else None
      | String _ _ => Some (digits_value acc s)
      end.
Proof.
  induction s as [|a s IH]; intros seen acc H; [reflexivity|].
  cbn in H. apply andb_true_iff in H. destruct H as [Ha Hs].
  cbn [Str.digits digits_value]. rewrite Ha, (IH true _ Hs).
  now destruct s.
Qed.

Lemma py_int_digit_first (c : ascii) (s : string) :
  Str.is_digit c = true ->
  Str.count_digits (String c s) <= Str.INT_MAX_STR_DIGITS ->
  Str.py_int (String c s) = Str.digits false 0 (String c s).
Proof.
  intros H L. unfold Str.py_int.
  apply Z.leb_le in L. rewrite L. clear L.
  revert H. destruct c as [[] [] [] [] [] [] [] []]; intros H;
    try discriminate H; reflexivity.
Qed.

Lemma py_int_over_limit (s : string) :
  Str.INT_MAX_STR_DIGITS < Str.count_digits s -> Str.py_int s = None.
Proof.
  intros L. unfold Str.py_int. apply Z.leb_gt in L. now rewrite L.
Qed.

Lemma strip_price_chars (s : string) :
  all_chars is_price_char s = true ->
  all_chars Str.is_digit (Str.remove_char "," (Str.remove_char "$" s)) = true.
Proof.
  induction s as [|a s IH]; cbn; [reflexivity|].
  intros H. apply andb_true_iff in H. destruct H as [Ha Hs].
  specialize (IH Hs). unfold is_price_char in Ha.
  destruct (Ascii.eqb a "$") eqn:E1; [exact IH|]. cbn.
  destruct (Ascii.eqb a ",") eqn:E2; [exact IH|]. cbn.
  rewrite !orb_false_r in Ha. now rewrite Ha, IH.
Qed.

(** A price written with digits, dollar signs and commas only parses to
    the number its digits spell, up to the digit limit of [int()]. *)
Lemma parse_price_of_digits (s : string) :
  all_chars is_price_char s = true ->
  any_char Str.is_digit s = true ->
  Str.count_digits s <= Str.INT_MAX_STR_DIGITS ->
  parse_price (VStr s) = Fin (digits_value 0 s).
Proof.
  intros Hall Hany Hlim. unfold parse_price.
  destruct s as [|a s]; [discriminate Hany|]. cbn [String.eqb].
  pose proof (strip_price_chars _ Hall) as Hd.
  assert (Hany' : any_char Str.is_digit
                    (Str.remove_char "," (Str.remove_char "$" (String a s)))
                  = true).
  { rewrite !remove_char_any_digit by reflexivity. exact Hany. }
  assert (Hval : digits_value 0
                   (Str.remove_char "," (Str.remove_char "$" (String a s)))
                 = digits_value 0 (String a s)).
  { now rewrite !remove_char_digits_value by reflexivity. }
  assert (Hcnt : Str.count_digits
                   (Str.remove_char "," (Str.remove_char "$" (String a s)))
                 <= Str.INT_MAX_STR_DIGITS).
  { now rewrite !remove_char_count_digits by reflexivity. }
  destruct (Str.remove_char "," (Str.remove_char "$" (String a s)))
    as [|c t]; [discriminate Hany'|].
  pose proof Hd as Hd'. cbn in Hd'. apply andb_true_iff in Hd'.
  rewrite (py_int_digit_first c t (proj1 Hd') Hcnt).
  rewrite (digits_all_digits _ false 0 Hd). now rewrite Hval.
Qed.

(** A price of more digits than [int()] accepts has no parsed value. *)
Lemma parse_price_over_limit (s : string) :
  Str.INT_MAX_STR_DIGITS < Str.count_digits s -> parse_price (VStr s) = Inf.
Proof.
  intros L. unfold parse_price.
  destruct (String.eqb s ""); [reflexivity|].
  rewrite py_int_over_limit; [reflexivity|].
  now rewrite !remove_char_count_digits by reflexivity.
Qed.

Lemma lstrip_empty (s : string) :
  Str.lstrip s = EmptyString -> all_chars Str.is_space s = true.
Proof.
  induction s as [|a s IH]; cbn; [reflexivity|].
  destruct (Str.is_space a); [exact IH | discriminate].
Qed.

Lemma lstrip_chars (p : ascii -> bool) (s : string) :
  (forall c, Str.is_space c = true -> p c = true) ->
  all_chars p (Str.lstrip s) = true -> all_chars p s = true.
Proof.
  intros Hp. induction s as [|a s IH]; cbn; [reflexivity|].
  destruct (Str.is_space a) eqn:E; [|exact (fun H => H)].
  intros H. now rewrite (Hp a E), IH.
Qed.

Lemma all_chars_impl (p q : ascii -> bool) (s : string) :
  (forall c, p c = true -> q c = true) ->
  all_chars p s = true -> all_chars q s = true.
Proof.
  intros Hpq. induction s as [|a s IH]; cbn; [reflexivity|].
  intros H. apply andb_true_iff in H. destruct H as [Ha Hs].
  now rewrite (Hpq a Ha), IH.
Qed.

Lemma all_chars_mem (p : ascii -> bool) (c : ascii) (s : string) :
  all_chars p s = true -> Str.mem_char c s = true -> p c = true.
Proof.
  induction s as [|a s IH]; cbn; [discriminate|].
  intros H M. apply andb_true_iff in H. destruct H as [Ha Hs].
  apply orb_true_iff in M. destruct M as [M|M]; [|now apply IH].
  apply Ascii.eqb_eq in M. now subst.
Qed.

Lemma space_is_int_char (c : ascii) : Str.is_space c = true -> is_int_char c = true.
Proof. intros H. unfold is_int_char. rewrite H. now rewrite orb_true_r. Qed.

(** A string of which [digits] makes a number holds digits, underscores and
    white space only. *)
Lemma digits_chars (s : string) :
  forall (seen : bool) (acc z : Z),
    Str.digits seen acc s = Some z -> all_chars is_int_char s = true.
Proof.
  induction s as [|a s IH]; intros seen acc z H; [reflexivity|].
  cbn [Str.digits] in H. cbn [all_chars]. unfold is_int_char at 1.
  destruct (Str.is_digit a) eqn:Ed; [now rewrite (IH _ _ _ H)|].
  destruct (Ascii.eqb a "_") eqn:Eu.
  - rewrite !orb_true_r. cbn. destruct seen; [|discriminate].
    destruct s as [|b s']; [discriminate|].
    destruct (Str.is_digit b); [|discriminate]. exact (IH _ _ _ H).
  - destruct (Str.is_space a) eqn:Es; [|discriminate]. cbn.
    destruct seen; [|discriminate].
    destruct (Str.lstrip s) eqn:El; [|discriminate].
    apply (all_chars_impl Str.is_space); [exact space_is_int_char|].
    now apply lstrip_empty.
Qed.


Lemma py_int_chars (s : string) (z : Z) :
  Str.py_int s = Some z -> all_chars is_int_char s = true.
Proof.
  unfold Str.py_int. intros H.
  destruct (Str.count_digits s <=? Str.INT_MAX_STR_DIGITS); [|discriminate H].
  apply lstrip_chars; [exact space_is_int_char|].
  destruct (Str.lstrip s) as [|c rest]; [discriminate H|].
  destruct (Ascii.eqb c "+") eqn:Ep.
  { apply Ascii.eqb_eq in Ep. subst c. cbn. exact (digits_chars _ _ _ _ H). }
  destruct (Ascii.eqb c "-") eqn:Em.
  { apply Ascii.eqb_eq in Em. subst c. cbn.
    destruct (Str.digits false 0 rest) eqn:D; [|discriminate H].
    exact (digits_chars _ _ _ _ D). }
  assert (E : Str.digits false 0 (String c rest) = Some z).
  { revert H Ep Em. destruct c as [[] [] [] [] [] [] [] []];
      intros H Ep Em; try discriminate Ep; try discriminate Em; exact H. }
  exact (digits_chars _ _ _ _ E).
Qed.

(** A price that holds a character which no number is written with has no
    parsed value. *)
Lemma parse_price_of_other_char (s : string) (c : ascii) :
  Str.mem_char c s = true ->
  is_number_char c = false ->
  parse_price (VStr s) = Inf.
Proof.
  intros M Hc. unfold parse_price.
  destruct (String.eqb s ""); [reflexivity|].
  destruct (Str.py_int (Str.remove_char "," (Str.remove_char "$" s))) as [z|] eqn:E;
    [|reflexivity].
  apply py_int_chars in E.
  unfold is_number_char in Hc.
  apply orb_false_iff in Hc. destruct Hc as [Hc Hcomma].
  apply orb_false_iff in Hc. destruct Hc as [Hc Hdollar].
  assert (M' : Str.mem_char c (Str.remove_char "," (Str.remove_char "$" s)) = true).
  { rewrite !remove_char_keeps by assumption. exact M. }
  pose proof (all_chars_mem _ _ _ E M') as Hint.
  unfold is_int_char in Hint. congruence.
Qed.


(** ** Post-processing of an offer list *)




Lemma py_eq_none_int (k : Z) : py_eq VNone (VInt k) = false.
Proof. reflexivity. Qed.

(** What equals the integer [k]: [k] itself, and the boolean whose integer
    value is [k]. *)
Lemma py_eq_int (v : pyval) (k : Z) :
  py_eq v (VInt k) = true
  <-> v = VInt k \/ exists b, v = VBool b /\ Z.b2z b = k.
Proof.
  destruct v as [|b|z|s]; cbn.
  - split; [discriminate|]. intros [H|(b & H & _)]; discriminate H.
  - rewrite Z.eqb_eq. split.
    + intros H. right. now exists b.
    + intros [H|(b' & [= <-] & H)]; [discriminate H | exact H].
  - rewrite Z.eqb_eq. split.
    + intros ->. now left.
    + intros [[= ->]|(b & H & _)]; [reflexivity | discriminate H].
  - split; [discriminate|]. intros [H|(b & H & _)]; discriminate H.
Qed.

(** C5. With [stops] set to [k] the filter keeps exactly the offers whose
    stop count equals [k] (in their original order: the list of kept stop
    counts is the list of all stop counts with the matching ones kept); an
    offer whose stop count is missing is dropped; without [stops] the list
    is unchanged.  An offer is kept exactly when its stop count is the
    integer [k] (or the boolean Python counts as [k]): an offer with
    another integer, or with a text such as "Unknown", is dropped. *)
Theorem stops_filter_exact (flights_list : list Flight) (k : Z) :
  (forall f, In f (filter_stops (Some k) flights_list)
             <-> In f flights_list /\ py_eq (stops f) (VInt k) = true)
  /\ (forall f, stops f = VInt k -> In f flights_list ->
                In f (filter_stops (Some k) flights_list))
  /\ (forall f, stops f = VNone -> ~ In f (filter_stops (Some k) flights_list))
  /\ map stops (filter_stops (Some k) flights_list)
     = filter (fun v => py_eq v (VInt k)) (map stops flights_list)
  /\ filter_stops None flights_list = flights_list
  /\ (forall f, In f (filter_stops (Some k) flights_list)
                <-> In f flights_list
                    /\ (stops f = VInt k
                        \/ exists b, stops f = VBool b /\ Z.b2z b = k))
  /\ (forall f j, stops f = VInt j -> j <> k ->
                  ~ In f (filter_stops (Some k) flights_list))
  /\ (forall f s, stops f = VStr s ->
                  ~ In f (filter_stops (Some k) flights_list)).
Proof.
  unfold filter_stops.
  split; [|split; [|split; [|split; [|split; [|split; [|split]]]]]].
  - intros f. rewrite filter_In. tauto.
  - intros f Hf Hin. apply filter_In. split; [exact Hin|].
    rewrite Hf. simpl. apply Z.eqb_refl.
  - intros f Hf Hin. apply filter_In in Hin. destruct Hin as [_ Hin].
    rewrite Hf in Hin. discriminate.
  - induction flights_list as [|f rest IH]; [reflexivity|].
    cbn [filter map]. destruct (py_eq (stops f) (VInt k)); cbn [map]; now rewrite IH.
  - reflexivity.
  - intros f. rewrite filter_In, py_eq_int. tauto.
  - intros f j Hf Hj Hin. apply filter_In in Hin. destruct Hin as [_ Hin].
    rewrite Hf in Hin. cbn in Hin. apply Z.eqb_eq in Hin. contradiction.
  - intros f s Hf Hin. apply filter_In in Hin. destruct Hin as [_ Hin].
    rewrite Hf in Hin. discriminate Hin.
Qed.

Lemma stops_filter_exact_witness :
  In (Iso.flight (VInt 0) (VStr "$200"))
     (filter_stops (Some 0)
        [Iso.flight (VInt 1) (VStr "$90"); Iso.flight VNone (VStr "$80");
         Iso.flight (VInt 0) (VStr "$200")])
  /\ ~ In (Iso.flight VNone (VStr "$80"))
       (filter_stops (Some 0)
          [Iso.flight (VInt 1) (VStr "$90"); Iso.flight VNone (VStr "$80");
           Iso.flight (VInt 0) (VStr "$200")])
  /\ ~ In (Iso.flight (VInt 1) (VStr "$90"))
       (filter_stops (Some 0)
          [Iso.flight (VInt 1) (VStr "$90"); Iso.flight VNone (VStr "$80");
           Iso.flight (VInt 0) (VStr "$200")]).
Proof.
  destruct (stops_filter_exact
              [Iso.flight (VInt 1) (VStr "$90"); Iso.flight VNone (VStr "$80");
               Iso.flight (VInt 0) (VStr "$200")] 0)
    as (_ & Hkeep & Hdrop & _ & _ & _ & Hother & _).
  split; [|split].
  - apply Hkeep; [reflexivity | simpl; tauto].
  - apply Hdrop. reflexivity.
  - apply (Hother _ 1); [reflexivity | lia].
Defined.

(** ** Truncation *)

Lemma slice_to_nonneg {A : Type} (l : list A) (n : Z) :
  0 <= n -> slice_to l (Some n) = firstn (Z.to_nat n) l.
Proof.
  intros H. unfold slice_to. destruct (0 <=? n) eqn:E; [reflexivity|].
  apply Z.leb_gt in E. lia.
Qed.

Lemma slice_to_negative {A : Type} (l : list A) (n : Z) :
  n < 0 -> slice_to l (Some n) = firstn (List.length l - Z.to_nat (- n)) l.
Proof.
  intros H. unfold slice_to. destruct (0 <=? n) eqn:E.
  - apply Z.leb_le in E. lia.
  - f_equal. lia.
Qed.

(** C8, as the code has it.  [processed_flights fl limit] is the expression
    of lines 120, 197 and 326, applied by the three tools to the filtered
    (and, if requested, sorted) list [fl]: without a limit every entry is
    rendered; with a limit that is not negative exactly the first [limit]
    entries are (all of them when the list is shorter). *)
Theorem limit_takes_prefix (result : option (list Flight))
  (stops_arg : option Z) (sort_cheapest : bool) (n : Z) :
  0 <= n ->
  let fl := filtered_flights result stops_arg sort_cheapest in
  processed_flights fl None = map flight_to_dict fl
  /\ processed_flights fl (Some n) = map flight_to_dict (firstn (Z.to_nat n) fl)
  /\ Z.of_nat (List.length (processed_flights fl (Some n)))
     = Z.min n (Z.of_nat (List.length fl)).
Proof.
  intros Hn fl. unfold processed_flights. rewrite slice_to_nonneg by exact Hn.
  repeat split. rewrite length_map, length_firstn. lia.
Qed.

Lemma limit_takes_prefix_witness :
  processed_flights
    (filtered_flights
       (Some [Iso.flight (VInt 0) (VStr "$500"); Iso.flight (VInt 0) (VStr "$200")])
       None true) (Some 1)
  = [flight_to_dict (Iso.flight (VInt 0) (VStr "$200"))].
Proof.
  destruct (limit_takes_prefix
              (Some [Iso.flight (VInt 0) (VStr "$500");
                     Iso.flight (VInt 0) (VStr "$200")]) None true 1)
    as (_ & H & _); [lia|].
  rewrite H. reflexivity.
Defined.

(** C8 as stated fails for a negative limit: with two offers and
    [limit = -1] the tool returns one offer, the first; that is neither
    "the first -1 entries" (no list has that length) nor an empty list. *)
Lemma limit_negative_counterexample :
  let f1 := Iso.flight (VInt 0) (VStr "$200") in
  let f2 := Iso.flight (VInt 1) (VStr "$500") in
  fst (get_flights_on_date Iso.strptime Iso.script Iso.get_flights
         "SFO" "JFK" "2025-07-20" 1 "economy" false None (Some (-1))
         (Iso.start [Return (Some [f1; f2])]))
  = JObj [("flights", JList [flight_to_dict f1])]
  /\ processed_flights [f1; f2] (Some (-1)) = [flight_to_dict f1]
  /\ processed_flights [f1; f2] (Some (-1))
     <> map flight_to_dict (firstn (Z.to_nat (-1)) [f1; f2])
  /\ Z.of_nat (List.length (processed_flights [f1; f2] (Some (-1)))) <> -1.
Proof.
  cbv zeta. split; [reflexivity|]. split; [reflexivity|]. split.
  - discriminate.
  - discriminate.
Qed.

(** ** The single-query tools *)

Section SingleQuery.
Variable strptime : string -> option Z.
Variable W : Type.
Variable get_flights : query -> W -> outcome (option (list Flight)) * W.

Lemma nonempty_false {A : Type} (l : list A) : nonempty l = false <-> l = [].
Proof. destruct l; simpl; split; congruence. Qed.




End SingleQuery.


(** ** The date window *)

Lemma in_zrange (x s : Z) (n : nat) :
  In x (zrange s n) <-> s <= x < s + Z.of_nat n.
Proof.
  revert s. induction n as [|k IH]; intros s; cbn [zrange In].
  - lia.
  - rewrite IH. lia.
Qed.

Lemma zrange_sorted (s : Z) (n : nat) : StronglySorted Z.lt (zrange s n).
Proof.
  revert s. induction n as [|k IH]; intros s; cbn [zrange]; constructor.
  - apply IH.
  - apply Forall_forall. intros x Hx. apply in_zrange in Hx. lia.
Qed.

Lemma date_list_loop_range (n : nat) :
  forall (fuel : nat) (current end_date : Z) (acc : list Z),
    Calendar.MINORDINAL <= current ->
    end_date < Calendar.MAXORDINAL ->
    n = Z.to_nat (end_date - current + 1) ->
    (n <= fuel)%nat ->
    date_list_loop fuel current end_date acc = Done (acc ++ zrange current n).
Proof.
  induction n as [|k IH]; intros fuel current end_date acc Hmin Hmax Hn Hfuel.
  - destruct fuel; cbn [date_list_loop zrange];
      (destruct (current <=? end_date) eqn:E;
       [apply Z.leb_le in E; lia | now rewrite app_nil_r]).
  - destruct fuel as [|fuel]; [lia|]. cbn [date_list_loop zrange].
    destruct (current <=? end_date) eqn:E; [|apply Z.leb_gt in E; lia].
    apply Z.leb_le in E. unfold Calendar.add_days.
    destruct ((Calendar.MINORDINAL <=? current + 1)
              && (current + 1 <=? Calendar.MAXORDINAL)) eqn:B.
    + rewrite (IH fuel (current + 1) end_date (acc ++ [current])); try lia.
      now rewrite <- app_assoc.
    + apply andb_false_iff in B. destruct B as [B|B];
        [apply Z.leb_gt in B | apply Z.leb_gt in B]; lia.
Qed.

Lemma build_date_list_range (start_date end_date : Z) :
  Calendar.MINORDINAL <= start_date ->
  end_date < Calendar.MAXORDINAL ->
  build_date_list start_date end_date = Done (date_range start_date end_date).
Proof.
  intros Hmin Hmax. unfold build_date_list, date_range.
  now rewrite (date_list_loop_range _ _ _ _ [] Hmin Hmax eq_refl (le_n _)).
Qed.

(** The increment after the last append overflows when the window ends on
    the last representable date. *)
Lemma date_list_loop_overflow (n : nat) :
  forall (fuel : nat) (current : Z) (acc : list Z),
    Calendar.MINORDINAL <= current <= Calendar.MAXORDINAL ->
    n = Z.to_nat (Calendar.MAXORDINAL - current + 1) ->
    (n <= fuel)%nat ->
    date_list_loop fuel current Calendar.MAXORDINAL acc = Uncaught "OverflowError".
Proof.
  induction n as [|k IH]; intros fuel current acc Hc Hn Hfuel; [lia|].
  destruct fuel as [|fuel]; [lia|]. cbn [date_list_loop].
  destruct (current <=? Calendar.MAXORDINAL) eqn:E; [|apply Z.leb_gt in E; lia].
  unfold Calendar.add_days.
  destruct ((Calendar.MINORDINAL <=? current + 1)
            && (current + 1 <=? Calendar.MAXORDINAL)) eqn:B; [|reflexivity].
  apply andb_true_iff in B. destruct B as [B1 B2].
  apply Z.leb_le in B1, B2. apply IH; lia.
Qed.

Lemma build_date_list_overflow (start_date : Z) :
  Calendar.MINORDINAL <= start_date <= Calendar.MAXORDINAL ->
  build_date_list start_date Calendar.MAXORDINAL = Uncaught "OverflowError".
Proof.
  intros H. unfold build_date_list.
  now apply (date_list_loop_overflow _ _ _ [] H eq_refl (le_n _)).
Qed.

(** The fuel handed to the loop always suffices. *)
Lemma date_list_loop_not_stuck (n : nat) :
  forall (fuel : nat) (current end_date : Z) (acc : list Z),
    n = Z.to_nat (end_date - current + 1) ->
    (n <= fuel)%nat ->
    date_list_loop fuel current end_date acc <> Stuck.
Proof.
  induction n as [|k IH]; intros fuel current end_date acc Hn Hfuel.
  - destruct fuel; cbn [date_list_loop];
      (destruct (current <=? end_date) eqn:E;
       [apply Z.leb_le in E; lia | discriminate]).
  - destruct fuel as [|fuel]; [lia|]. cbn [date_list_loop].
    destruct (current <=? end_date) eqn:E; [|discriminate].
    destruct (Calendar.add_days current 1) as [next|] eqn:A; [|discriminate].
    unfold Calendar.add_days in A.
    destruct ((Calendar.MINORDINAL <=? current + 1)
              && (current + 1 <=? Calendar.MAXORDINAL)); [|discriminate].
    injection A as <-. apply IH; lia.
Qed.

Lemma build_date_list_not_stuck (start_date end_date : Z) :
  build_date_list start_date end_date <> Stuck.
Proof.
  unfold build_date_list.
  now apply (date_list_loop_not_stuck _ _ _ _ [] eq_refl (le_n _)).
Qed.

(** The only exception the loop can raise is the overflow of the increment. *)
Lemma date_list_loop_raises (fuel : nat) :
  forall (current end_date : Z) (acc : list Z) (t : string),
    date_list_loop fuel current end_date acc = Uncaught t ->
    t = "OverflowError".
Proof.
  induction fuel as [|fuel IH]; intros current end_date acc t;
    cbn [date_list_loop]; destruct (current <=? end_date); try discriminate.
  destruct (Calendar.add_days current 1) as [next|].
  - apply IH.
  - now intros [= <-].
Qed.

(** ** The enumeration of date pairs *)

Lemma valid_stay_ok (min_stay_days max_stay_days : option Z) (stay : Z) :
  valid_stay min_stay_days max_stay_days stay = true
  <-> stay_ok min_stay_days max_stay_days stay.
Proof.
  unfold valid_stay, stay_ok.
  destruct min_stay_days as [a|], max_stay_days as [b|]; cbv zeta.
  - destruct (stay >? b) eqn:Eb, (stay <? a) eqn:Ea;
      rewrite ?Z.gtb_ltb in Eb;
      rewrite ?Z.ltb_lt, ?Z.ltb_ge in Ea, Eb;
      split; try discriminate; try reflexivity.
    + intros [Ha Hb]. specialize (Hb _ eq_refl). lia.
    + intros [Ha Hb]. specialize (Hb _ eq_refl). lia.
    + intros [Ha Hb]. specialize (Ha _ eq_refl). lia.
    + intros _. split; intros m [= <-]; lia.
  - destruct (stay <? a) eqn:Ea; rewrite ?Z.ltb_lt, ?Z.ltb_ge in Ea;
      split; try discriminate; try reflexivity.
    + intros [Ha _]. specialize (Ha _ eq_refl). lia.
    + intros _. split; [intros m [= <-]; lia | discriminate].
  - destruct (stay >? b) eqn:Eb; rewrite ?Z.gtb_ltb in Eb;
      rewrite ?Z.ltb_lt, ?Z.ltb_ge in Eb;
      split; try discriminate; try reflexivity.
    + intros [_ Hb]. specialize (Hb _ eq_refl). lia.
    + intros _. split; [discriminate | intros m [= <-]; lia].
  - split; [|reflexivity]. intros _. split; discriminate.
Qed.

Section Enumeration.
Variables min_stay_days max_stay_days : option Z.

(** The inner loop for one departure date: the returns kept among [suffix]. *)
Let returns_of (suffix : list Z) (depart_date : Z) : list (Z * Z) :=
  flat_map
    (fun return_date =>
       if valid_stay min_stay_days max_stay_days
            (Calendar.days_between return_date depart_date)
       then [(depart_date, return_date)] else [])
    suffix.

Lemma flat_map_enumerate {A B : Type} (g : A -> list B) (l : list A) (n : nat) :
  flat_map (fun '(j, x) => g x) (combine (seq n (List.length l)) l)
  = flat_map g l.
Proof.
  revert n. induction l as [|x rest IH]; intros n; [reflexivity|].
  cbn [List.length seq combine flat_map]. now rewrite IH.
Qed.

Lemma outer_loop_suffixes (pre l : list Z) :
  flat_map
    (fun '(i, depart_date) => returns_of (skipn i (pre ++ l)) depart_date)
    (combine (seq (List.length pre) (List.length l)) l)
  = suffix_pairs returns_of l.
Proof.
  revert pre. induction l as [|d rest IH]; intros pre; [reflexivity|].
  cbn [List.length seq combine flat_map suffix_pairs].
  rewrite skipn_app, skipn_all, Nat.sub_diag. cbn [skipn app]. f_equal.
  specialize (IH (pre ++ [d])).
  rewrite <- app_assoc, length_app in IH. cbn [List.length app] in IH.
  rewrite Nat.add_1_r in IH. exact IH.
Qed.

Lemma date_pairs_to_check_suffixes (date_list : list Z) :
  date_pairs_to_check date_list min_stay_days max_stay_days
  = suffix_pairs returns_of date_list.
Proof.
  rewrite <- (outer_loop_suffixes [] date_list).
  unfold date_pairs_to_check, enumerate. cbn [app List.length].
  apply flat_map_ext. intros [i d]. unfold returns_of.
  apply (flat_map_enumerate
           (fun return_date =>
              if valid_stay min_stay_days max_stay_days
                   (Calendar.days_between return_date d)
              then [(d, return_date)] else [])).
Qed.

Lemma in_returns_of (suffix : list Z) (depart_date d r : Z) :
  In (d, r) (returns_of suffix depart_date)
  <-> d = depart_date /\ In r suffix
      /\ stay_ok min_stay_days max_stay_days (r - d).
Proof.
  unfold returns_of. rewrite in_flat_map. rewrite <- valid_stay_ok.
  unfold Calendar.days_between. split.
  - intros (x & Hx & Hin).
    destruct (valid_stay min_stay_days max_stay_days (x - depart_date)) eqn:E;
      [|destruct Hin].
    destruct Hin as [[= <- <-]|[]]. auto.
  - intros (-> & Hin & Hv). exists r. split; [exact Hin|].
    rewrite Hv. now left.
Qed.

Lemma returns_of_sorted (suffix : list Z) (depart_date : Z) :
  StronglySorted Z.lt suffix ->
  StronglySorted pair_lt (returns_of suffix depart_date).
Proof.
  induction 1 as [|x rest Hs IH Hall]; [constructor|].
  unfold returns_of in *. cbn [flat_map].
  destruct (valid_stay min_stay_days max_stay_days
              (Calendar.days_between x depart_date)); [|exact IH].
  cbn [app]. constructor; [exact IH|].
  apply Forall_forall. intros [d r] Hin.
  apply (in_returns_of rest depart_date d r) in Hin.
  destruct Hin as (-> & Hin & _).
  rewrite Forall_forall in Hall. right. cbn. split; [reflexivity|].
  now apply Hall.
Qed.

Lemma StronglySorted_app_intro {A : Type} (R : A -> A -> Prop) (l1 l2 : list A) :
  StronglySorted R l1 -> StronglySorted R l2 ->
  (forall x y, In x l1 -> In y l2 -> R x y) ->
  StronglySorted R (l1 ++ l2).
Proof.
  induction 1 as [|x rest Hs IH Hall]; intros H2 Hcross; [exact H2|].
  cbn [app]. constructor.
  - apply IH; [exact H2|]. intros a b Ha Hb. apply Hcross; [now right|exact Hb].
  - apply Forall_app. split; [exact Hall|].
    apply Forall_forall. intros y Hy. apply Hcross; [now left|exact Hy].
Qed.

Lemma in_suffix_pairs_zrange (n : nat) (s d r : Z) :
  In (d, r) (suffix_pairs returns_of (zrange s n))
  <-> s <= d /\ d <= r /\ r < s + Z.of_nat n
      /\ stay_ok min_stay_days max_stay_days (r - d).
Proof.
  revert s. induction n as [|k IH]; intros s.
  - cbn [zrange suffix_pairs In]. lia.
  - cbn [zrange suffix_pairs]. rewrite in_app_iff, IH.
    rewrite (in_returns_of (s :: zrange (s + 1) k) s d r).
    change (s :: zrange (s + 1) k) with (zrange s (S k)).
    rewrite in_zrange. split.
    + intros [(-> & Hr & Hv)|(H1 & H2 & H3 & Hv)];
        (split; [lia|split; [lia|split; [lia|exact Hv]]]).
    + intros (H1 & H2 & H3 & Hv).
      destruct (Z.eq_dec d s) as [->|Hne].
      * left. split; [reflexivity|split; [lia|exact Hv]].
      * right. split; [lia|split; [lia|split; [lia|exact Hv]]].
Qed.

Lemma suffix_pairs_zrange_sorted (n : nat) (s : Z) :
  StronglySorted pair_lt (suffix_pairs returns_of (zrange s n)).
Proof.
  revert s. induction n as [|k IH]; intros s; [constructor|].
  cbn [zrange suffix_pairs]. apply StronglySorted_app_intro.
  - apply returns_of_sorted. apply (zrange_sorted s (S k)).
  - apply IH.
  - intros [d r] [d' r'] H1 H2.
    apply (in_returns_of (s :: zrange (s + 1) k) s d r) in H1.
    apply in_suffix_pairs_zrange in H2.
    left. cbn. destruct H1 as (-> & _). lia.
Qed.

End Enumeration.

Lemma pair_lt_irrefl (p : Z * Z) : ~ pair_lt p p.
Proof. unfold pair_lt. lia. Qed.

Lemma sorted_pairs_nodup (l : list (Z * Z)) :
  StronglySorted pair_lt l -> NoDup l.
Proof.
  induction 1 as [|x rest Hs IH Hall]; constructor; [|exact IH].
  intros Hin. rewrite Forall_forall in Hall.
  exact (pair_lt_irrefl x (Hall x Hin)).
Qed.

(** For every window that ends before the last representable date the
    enumeration is exactly the set of the pairs [(d, r)] with
    [start <= d <= r <= end] whose stay satisfies the configured bounds,
    each once, by departure date and then by return date. *)
Lemma enumeration_exact (start_date end_date : Z)
  (min_stay_days max_stay_days : option Z) :
  Calendar.MINORDINAL <= start_date ->
  start_date <= end_date ->
  end_date < Calendar.MAXORDINAL ->
  exists date_list,
    build_date_list start_date end_date = Done date_list
    /\ date_list = date_range start_date end_date
    /\ let pairs := date_pairs_to_check date_list min_stay_days max_stay_days in
       (forall d r, In (d, r) pairs
                    <-> start_date <= d /\ d <= r /\ r <= end_date
                        /\ stay_ok min_stay_days max_stay_days (r - d))
       /\ StronglySorted pair_lt pairs
       /\ NoDup pairs
       /\ (forall m, min_stay_days = Some m -> m > end_date - start_date ->
                     pairs = [])
       /\ (start_date = end_date ->
           forall p, In p pairs -> p = (start_date, start_date)).
Proof.
  intros Hmin Hle Hmax. exists (date_range start_date end_date).
  split; [now apply build_date_list_range|]. split; [reflexivity|].
  cbv zeta. rewrite date_pairs_to_check_suffixes. unfold date_range.
  assert (Hin : forall d r,
             In (d, r)
               (suffix_pairs
                  (fun suffix depart_date =>
                     flat_map
                       (fun return_date =>
                          if valid_stay min_stay_days max_stay_days
                               (Calendar.days_between return_date depart_date)
                          then [(depart_date, return_date)] else []) suffix)
                  (zrange start_date (Z.to_nat (end_date - start_date + 1))))
             <-> start_date <= d /\ d <= r /\ r <= end_date
                 /\ stay_ok min_stay_days max_stay_days (r - d)).
  { intros d r. rewrite in_suffix_pairs_zrange. rewrite Z2Nat.id by lia.
    split; intros (H1 & H2 & H3 & H4);
      (split; [lia|split; [lia|split; [lia|exact H4]]]). }
  split; [exact Hin|]. split; [apply suffix_pairs_zrange_sorted|].
  split; [apply sorted_pairs_nodup, suffix_pairs_zrange_sorted|]. split.
  - intros m Hm Hgt.
    match goal with |- ?l = [] => remember l as pairs eqn:E end.
    destruct pairs as [|[d r] rest]; [reflexivity|].
    assert (H : In (d, r) ((d, r) :: rest)) by now left.
    apply Hin in H. destruct H as (H1 & H2 & H3 & Hs & _).
    specialize (Hs m Hm). lia.
  - intros Heq [d r] H. apply Hin in H. destruct H as (H1 & H2 & H3 & _).
    f_equal; lia.
Qed.

(** ** Deduplicated messages *)

Lemma mem_string_in (m : string) (l : list string) :
  existsb (String.eqb m) l = true <-> In m l.
Proof.
  rewrite existsb_exists. split.
  - intros (x & Hx & E). apply String.eqb_eq in E. now subst.
  - intros H. exists m. split; [exact H | apply String.eqb_refl].
Qed.

Lemma first_occurrences_in (l seen : list string) (m : string) :
  In m (seen ++ first_occurrences seen l) <-> In m seen \/ In m l.
Proof.
  revert seen. induction l as [|x rest IH]; intros seen; cbn [first_occurrences].
  - rewrite app_nil_r. cbn. tauto.
  - destruct (existsb (String.eqb x) seen) eqn:E.
    + rewrite IH. apply mem_string_in in E. cbn. split; [tauto|].
      intros [H|[<-|H]]; tauto.
    + change (seen ++ x :: first_occurrences (seen ++ [x]) rest)
        with (seen ++ [x] ++ first_occurrences (seen ++ [x]) rest).
      rewrite app_assoc, IH, in_app_iff. cbn. tauto.
Qed.

Lemma first_occurrences_nodup (l seen : list string) :
  NoDup seen -> NoDup (seen ++ first_occurrences seen l).
Proof.
  revert seen. induction l as [|x rest IH]; intros seen Hs; cbn [first_occurrences].
  - now rewrite app_nil_r.
  - destruct (existsb (String.eqb x) seen) eqn:E.
    + now apply IH.
    + change (seen ++ x :: first_occurrences (seen ++ [x]) rest)
        with (seen ++ [x] ++ first_occurrences (seen ++ [x]) rest).
      rewrite app_assoc. apply IH.
      apply NoDup_app; [exact Hs | repeat constructor; intros [] |].
      intros a Ha [<-|[]]. apply mem_string_in in Ha. congruence.
Qed.

(** A message that is already recorded is not recorded again; one that is
    new goes to the end. *)
Lemma first_occurrences_app (l1 l2 seen : list string) :
  first_occurrences seen (l1 ++ l2)
  = first_occurrences seen l1
    ++ first_occurrences (seen ++ first_occurrences seen l1) l2.
Proof.
  revert seen. induction l1 as [|x rest IH]; intros seen; cbn [first_occurrences app].
  - now rewrite app_nil_r.
  - destruct (existsb (String.eqb x) seen) eqn:E.
    + apply IH.
    + cbn [app]. rewrite IH. do 2 f_equal.
      now rewrite <- app_assoc.
Qed.

(** ** The scan loop *)

Section ScanFacts.
Variable strftime : Z -> string.
Variable W : Type.
Variable get_flights : query -> W -> outcome (option (list Flight)) * W.
Variables origin destination : string.
Variable adults : Z.
Variable seat_type : string.
Variable sort_cheapest : bool.
Variables stops_arg limit : option Z.

Let step :=
  scan_step strftime W get_flights origin destination adults seat_type
    sort_cheapest stops_arg limit.
Let run_scan :=
  scan strftime W get_flights origin destination adults seat_type
    sort_cheapest stops_arg limit.
Let query_of := range_query strftime origin destination adults seat_type.

Lemma entries_of_cons (x : (Z * Z) * outcome (option (list Flight))) l :
  entries_of strftime sort_cheapest stops_arg limit (x :: l)
  = entries_of strftime sort_cheapest stops_arg limit [x]
    ++ entries_of strftime sort_cheapest stops_arg limit l.
Proof. unfold entries_of. cbn [flat_map]. now rewrite app_nil_r. Qed.

Lemma messages_of_cons (x : (Z * Z) * outcome (option (list Flight))) l :
  messages_of strftime (x :: l)
  = messages_of strftime [x] ++ messages_of strftime l.
Proof. unfold messages_of. cbn [flat_map]. now rewrite app_nil_r. Qed.

(** One round of the loop, by the outcome of its provider call. *)
Lemma scan_step_outcome (st : scan_state W) (d r : Z) :
  let ow := get_flights (query_of (d, r)) (world (provider st)) in
  let st' := step st (d, r) in
  provider st'
  = {| world := snd ow; calls := calls (provider st) ++ [query_of (d, r)] |}
  /\ results_data st'
     = results_data st
       ++ entries_of strftime sort_cheapest stops_arg limit [((d, r), fst ow)]
  /\ error_messages st'
     = error_messages st
       ++ first_occurrences (error_messages st)
            (messages_of strftime [((d, r), fst ow)]).
Proof.
  cbv zeta. unfold step, scan_step, call_provider, query_of.
  destruct (get_flights
              (range_query strftime origin destination adults seat_type (d, r))
              (world (provider st))) as [[result|e] w1];
    cbn [fst snd provider results_data error_messages entries_of messages_of
         flat_map app first_occurrences].
  - rewrite app_nil_r. auto.
  - unfold mem_string.
    destruct (existsb (String.eqb (err_msg strftime d r e)) (error_messages st));
      rewrite ?app_nil_r; auto.
Qed.

(** The loop in terms of the outcomes of its provider rounds. *)
Lemma scan_spec (pairs : list (Z * Z)) :
  forall st : scan_state W,
    let tr := provider_trace get_flights (map query_of pairs)
                (world (provider st)) in
    let po := combine pairs (fst tr) in
    results_data (run_scan pairs st)
    = results_data st
      ++ entries_of strftime sort_cheapest stops_arg limit po
    /\ error_messages (run_scan pairs st)
       = error_messages st
         ++ first_occurrences (error_messages st) (messages_of strftime po)
    /\ calls (provider (run_scan pairs st))
       = calls (provider st) ++ map query_of pairs
    /\ world (provider (run_scan pairs st)) = snd tr
    /\ List.length (fst tr) = List.length pairs.
Proof.
  induction pairs as [|[d r] rest IH]; intros st; cbv zeta.
  - cbn. rewrite !app_nil_r. auto.
  - change (run_scan ((d, r) :: rest) st) with (run_scan rest (step st (d, r))).
    destruct (scan_step_outcome st d r) as (P & R & E).
    specialize (IH (step st (d, r))). cbv zeta in IH.
    rewrite P, R, E in IH. cbn [world calls] in IH.
    cbn [map provider_trace].
    destruct (get_flights (query_of (d, r)) (world (provider st))) as [o w1].
    cbn [fst snd] in *.
    destruct (provider_trace get_flights (map query_of rest) w1) as [os w2].
    cbn [fst snd combine List.length] in *.
    destruct IH as (H1 & H2 & H3 & H4 & H5).
    rewrite (entries_of_cons _ (combine rest os)).
    rewrite (messages_of_cons _ (combine rest os)), first_occurrences_app.
    rewrite H1, H2, H3, H4, H5, <- !app_assoc. cbn [app]. auto.
Qed.

End ScanFacts.

(** ** The range scan as a whole *)

Lemma items_of_report {W : Type} (origin destination s e : string)
  (st : scan_state W) :
  items (field "all_round_trip_options" (report W origin destination s e st))
  = results_data st
  /\ field "errors_encountered" (report W origin destination s e st)
     = Some (errors_encountered (error_messages st))
  /\ field "error" (report W origin destination s e st) = None.
Proof.
  unfold report.
  destruct (results_data st) as [|x l], (error_messages st) as [|m ms];
    cbn; auto.
Qed.

Lemma date_range_nonempty (a b : Z) : a <= b -> nonempty (date_range a b) = true.
Proof.
  intros H. unfold date_range.
  destruct (Z.to_nat (b - a + 1)) eqn:E; [lia | reflexivity].
Qed.

Lemma entries_and_failures {A : Type} (f : (Z * Z) * outcome A -> list json)
  (pairs : list (Z * Z)) :
  forall outs : list (outcome A),
    List.length outs = List.length pairs ->
    (forall p a, List.length (f (p, Return a)) = 1%nat) ->
    (forall p e, f (p, Raise e) = []) ->
    (List.length (flat_map f (combine pairs outs))
     + List.length (filter is_raise outs))%nat = List.length pairs.
Proof.
  induction pairs as [|p rest IH]; intros outs Hlen H1 H0;
    destruct outs as [|o os]; try discriminate; [reflexivity|].
  cbn [combine flat_map filter List.length] in *.
  rewrite length_app. injection Hlen as Hlen.
  specialize (IH os Hlen H1 H0).
  destruct o as [a|e]; cbn [is_raise List.length].
  - rewrite H1. lia.
  - rewrite H0. cbn [List.length]. lia.
Qed.

Section RangeScan.
Variable strptime : string -> option Z.
Variable strftime : Z -> string.
Variable W : Type.
Variable get_flights : query -> W -> outcome (option (list Flight)) * W.
Variables origin destination start_date_str end_date_str : string.
Variables min_stay_days max_stay_days : option Z.
Variable adults : Z.
Variable seat_type : string.
Variable sort_cheapest : bool.
Variables stops_arg limit : option Z.

Let tool :=
  find_all_flights_in_range strptime strftime W get_flights origin
    destination start_date_str end_date_str min_stay_days max_stay_days
    adults seat_type sort_cheapest stops_arg limit.

(** On a window that parses, is in order and ends before the last
    representable date, the tool scans the enumerated pairs from an empty
    report and replies with the report of the final state. *)
Lemma range_scan_runs (st : provider_state W) (start_date end_date : Z) :
  strptime start_date_str = Some start_date ->
  strptime end_date_str = Some end_date ->
  Calendar.MINORDINAL <= start_date ->
  start_date <= end_date ->
  end_date < Calendar.MAXORDINAL ->
  let final :=
    scan strftime W get_flights origin destination adults seat_type
      sort_cheapest stops_arg limit
      (date_pairs_to_check (date_range start_date end_date)
         min_stay_days max_stay_days)
      {| results_data := []; error_messages := []; provider := st |} in
  tool st
  = (Done (report W origin destination start_date_str end_date_str final),
     provider final).
Proof.
  intros Hs He Hmin Hle Hmax. cbv zeta.
  unfold tool, find_all_flights_in_range. rewrite Hs, He.
  destruct (start_date >? end_date) eqn:G;
    [rewrite Z.gtb_ltb in G; apply Z.ltb_lt in G; lia|].
  rewrite build_date_list_range by assumption.
  now rewrite date_range_nonempty by assumption.
Qed.

(** The tool always ends: with a reply, or with the [OverflowError] of the
    date loop. *)
Lemma range_scan_total (st : provider_state W) :
  (exists reply, fst (tool st) = Done reply)
  \/ fst (tool st) = Uncaught "OverflowError".
Proof.
  unfold tool, find_all_flights_in_range.
  destruct (strptime start_date_str) as [a|]; [|left; now eexists].
  destruct (strptime end_date_str) as [b|]; [|left; now eexists].
  destruct (a >? b); [left; now eexists|].
  destruct (build_date_list a b) as [dl|t|] eqn:E.
  - left. destruct (negb (nonempty dl)); now eexists.
  - right. cbn. f_equal. exact (date_list_loop_raises _ _ _ _ _ E).
  - now destruct (build_date_list_not_stuck a b).
Qed.

(** C3. When either date string does not parse, or the start date is after
    the end date, the tool replies with one structured error document (the
    invalid-format one, respectively the invalid-range one); the provider
    state, and with it the log of provider rounds, is what it was, and no
    exception leaves the tool. *)
Theorem invalid_window_rejected (st : provider_state W) :
  (strptime start_date_str = None
   \/ strptime end_date_str = None
   \/ exists a b, strptime start_date_str = Some a
                  /\ strptime end_date_str = Some b /\ a > b) ->
  tool st
  = (Done
       (error_payload
          match strptime start_date_str, strptime end_date_str with
          | Some _, Some _ => "Start date cannot be after end date."
          | _, _ => "Invalid date format. Use YYYY-MM-DD."
          end "ValueError"),
     st)
  /\ calls (snd (tool st)) = calls st.
Proof.
  intros H. assert (E : tool st
  = (Done
       (error_payload
          match strptime start_date_str, strptime end_date_str with
          | Some _, Some _ => "Start date cannot be after end date."
          | _, _ => "Invalid date format. Use YYYY-MM-DD."
          end "ValueError"),
     st)).
  { unfold tool, find_all_flights_in_range.
    destruct H as [H|[H|(a & b & Ha & Hb & Hgt)]].
    - now rewrite H.
    - rewrite H. now destruct (strptime start_date_str).
    - rewrite Ha, Hb. destruct (a >? b) eqn:G; [reflexivity|].
      rewrite Z.gtb_ltb in G. apply Z.ltb_ge in G. lia. }
  split; [exact E | now rewrite E].
Qed.

(** C1, as the code has it.  A provider failure on a pair does not stop the
    scan: every enumerated pair is asked for exactly once, in enumeration
    order, whatever the earlier rounds did.  A failing pair gets no entry
    in the results: the results hold one entry for each pair on which the
    provider returned, in enumeration order, so their number is the number
    of pairs less the number of failures; the failures are reported
    through the error list only. *)
Theorem failure_isolation (st : provider_state W) (start_date end_date : Z) :
  strptime start_date_str = Some start_date ->
  strptime end_date_str = Some end_date ->
  Calendar.MINORDINAL <= start_date ->
  start_date <= end_date ->
  end_date < Calendar.MAXORDINAL ->
  let pairs :=
    date_pairs_to_check (date_range start_date end_date)
      min_stay_days max_stay_days in
  let qs :=
    map (range_query strftime origin destination adults seat_type) pairs in
  let outs := fst (provider_trace get_flights qs (world st)) in
  exists reply,
    fst (tool st) = Done reply
    /\ calls (snd (tool st)) = calls st ++ qs
    /\ List.length outs = List.length pairs
    /\ items (field "all_round_trip_options" reply)
       = entries_of strftime sort_cheapest stops_arg limit (combine pairs outs)
    /\ (List.length (items (field "all_round_trip_options" reply))
        + List.length (filter is_raise outs))%nat = List.length pairs
    /\ field "errors_encountered" reply
       = Some (errors_encountered
                 (first_occurrences [] (messages_of strftime (combine pairs outs)))).
Proof.
  intros Hs He Hmin Hle Hmax pairs qs outs.
  rewrite (range_scan_runs st _ _ Hs He Hmin Hle Hmax). cbn [fst snd].
  fold pairs.
  destruct (scan_spec strftime W get_flights origin destination adults
              seat_type sort_cheapest stops_arg limit pairs
              {| results_data := []; error_messages := []; provider := st |})
    as (H1 & H2 & H3 & H4 & H5).
  cbn [results_data error_messages provider app] in H1, H2, H3, H4, H5.
  fold qs in H1, H2, H3, H4, H5. fold outs in H1, H2, H5.
  eexists. split; [reflexivity|].
  destruct (items_of_report origin destination start_date_str end_date_str
              (scan strftime W get_flights origin destination adults
                 seat_type sort_cheapest stops_arg limit pairs
                 {| results_data := []; error_messages := []; provider := st |}))
    as (I1 & I2 & _).
  rewrite I1, I2, H1, H2, H3.
  split; [reflexivity|]. split; [exact H5|]. split; [reflexivity|].
  split; [|reflexivity].
  unfold entries_of. apply entries_and_failures; [exact H5| |]; cbn.
  - reflexivity.
  - reflexivity.
Qed.

(** C9. When the validated window leaves no pair to check, the tool makes
    no provider round and replies with the "No flights found and no errors
    encountered" message document, whose error list is null; the reply is
    not an error document. *)
Theorem empty_enumeration_reports_message (st : provider_state W)
  (start_date end_date : Z) :
  strptime start_date_str = Some start_date ->
  strptime end_date_str = Some end_date ->
  Calendar.MINORDINAL <= start_date ->
  start_date <= end_date ->
  end_date < Calendar.MAXORDINAL ->
  date_pairs_to_check (date_range start_date end_date)
    min_stay_days max_stay_days = [] ->
  tool st
  = (Done
       (JObj [("message",
               JStr ("No flights found and no errors encountered for "
                     ++ origin ++ " -> " ++ destination ++ " in the range "
                     ++ start_date_str ++ " to " ++ end_date_str ++ ".")%string);
              ("errors_encountered", JNull)]),
     st)
  /\ (forall reply, fst (tool st) = Done reply -> field "error" reply = None).
Proof.
  intros Hs He Hmin Hle Hmax Hnil.
  rewrite (range_scan_runs st _ _ Hs He Hmin Hle Hmax). rewrite Hnil.
  cbn. split; [reflexivity|]. intros reply [= <-]. reflexivity.
Qed.

End RangeScan.

(** ** Error reporting *)

Lemma append_occurs (a s b : string) : occurs_in s (a ++ s ++ b)%string.
Proof. now exists a, b. Qed.

Lemma string_app_assoc (a b c : string) :
  ((a ++ b) ++ c = a ++ (b ++ c))%string.
Proof. induction a as [|x a IH]; cbn; [reflexivity | now rewrite IH]. Qed.

Lemma string_app_nil_r (a : string) : (a ++ "")%string = a.
Proof. induction a as [|x a IH]; cbn; [reflexivity | now rewrite IH]. Qed.

Lemma take_prefix (n : nat) (s : string) :
  exists rest : string, s = (Str.take n s ++ rest)%string.
Proof.
  unfold Str.take. revert s. induction n as [|k IH]; intros s.
  - exists s. now destruct s.
  - destruct s as [|c s]; [now exists ""%string|].
    destruct (IH s) as (rest & E). exists rest. cbn. now rewrite <- E.
Qed.

Lemma take_length (n : nat) (s : string) :
  String.length (Str.take n s) = Nat.min n (String.length s).
Proof.
  unfold Str.take. revert s. induction n as [|k IH]; intros s.
  - now destruct s.
  - destruct s as [|c s]; [reflexivity|]. cbn. now rewrite IH.
Qed.

Lemma take_all (n : nat) (s : string) :
  (String.length s <= n)%nat -> Str.take n s = s.
Proof.
  unfold Str.take. revert s. induction n as [|k IH]; intros s H.
  - destruct s; [reflexivity | cbn in H; lia].
  - destruct s as [|c s]; [reflexivity|]. cbn in *. rewrite IH; [reflexivity|lia].
Qed.

Lemma mem_char_app (c : ascii) (a b : string) :
  Str.mem_char c (a ++ b) = Str.mem_char c a || Str.mem_char c b.
Proof.
  induction a as [|x a IH]; cbn; [reflexivity|].
  rewrite IH. now rewrite orb_assoc.
Qed.

Lemma occurs_mem_char (c : ascii) (s t : string) :
  occurs_in s t -> Str.mem_char c s = true -> Str.mem_char c t = true.
Proof.
  intros (a & b & ->) H. rewrite !mem_char_app, H. now rewrite orb_true_r.
Qed.

Section ErrorReporting.
Variable strftime : Z -> string.
Variable W : Type.
Variable get_flights : query -> W -> outcome (option (list Flight)) * W.
Variables origin destination : string.
Variable adults : Z.
Variable seat_type : string.
Variable sort_cheapest : bool.
Variables stops_arg limit : option Z.

Let run_scan :=
  scan strftime W get_flights origin destination adults seat_type
    sort_cheapest stops_arg limit.
Let query_of := range_query strftime origin destination adults seat_type.

(** C6. Along every scan the collected error messages hold no message
    twice: from a duplicate-free list, the list after any number of rounds
    is duplicate-free, it is the old list followed by the first
    occurrences, in order, of the messages of the failing rounds that were
    not recorded yet, and a message rendered by several failing rounds is
    there exactly once. *)
Theorem error_messages_deduplicated (pairs : list (Z * Z)) (st : scan_state W) :
  NoDup (error_messages st) ->
  let outs :=
    fst (provider_trace get_flights (map query_of pairs) (world (provider st))) in
  let msgs := messages_of strftime (combine pairs outs) in
  NoDup (error_messages (run_scan pairs st))
  /\ (forall k, NoDup (error_messages (run_scan (firstn k pairs) st)))
  /\ error_messages (run_scan pairs st)
     = error_messages st ++ first_occurrences (error_messages st) msgs
  /\ (forall m, In m (error_messages (run_scan pairs st))
                <-> In m (error_messages st) \/ In m msgs)
  /\ (forall m, In m msgs ->
                count_occ string_dec (error_messages (run_scan pairs st)) m
                = 1%nat).
Proof.
  intros Hnd outs msgs.
  assert (Hall : forall l,
             error_messages (run_scan l st)
             = error_messages st
               ++ first_occurrences (error_messages st)
                    (messages_of strftime
                       (combine l
                          (fst (provider_trace get_flights (map query_of l)
                                  (world (provider st))))))).
  { intros l.
    exact (proj1 (proj2 (scan_spec strftime W get_flights origin destination
                           adults seat_type sort_cheapest stops_arg limit l st))). }
  assert (Hnd' : forall l, NoDup (error_messages (run_scan l st))).
  { intros l. rewrite Hall. now apply first_occurrences_nodup. }
  split; [apply Hnd'|]. split; [intros k; apply Hnd'|].
  split; [apply Hall|]. split.
  - intros m. rewrite Hall. apply first_occurrences_in.
  - intros m Hm. apply NoDup_count_occ'; [apply Hnd'|].
    rewrite Hall. apply first_occurrences_in. now right.
Qed.

(** C7, as the code has it.  A failing round leaves the results as they
    were and its message in the error list; the message names the two
    dates and the type of the exception and carries the first 100
    characters of the exception's own message, which is all of it when it
    has at most 100 characters. *)
Theorem provider_failure_recorded (st : scan_state W) (d r : Z) (e : exn)
  (w : W) :
  get_flights (query_of (d, r)) (world (provider st)) = (Raise e, w) ->
  let st' := run_scan [(d, r)] st in
  let m := err_msg strftime d r e in
  In m (error_messages st')
  /\ results_data st' = results_data st
  /\ m = ("Error fetching flights for " ++ strftime d ++ " -> " ++ strftime r
          ++ ": " ++ exn_type e ++ ". Check server logs for details: "
          ++ Str.take 100 (exn_str e) ++ "...")%string
  /\ occurs_in (exn_type e) m
  /\ occurs_in (Str.take 100 (exn_str e)) m
  /\ (exists rest, exn_str e = (Str.take 100 (exn_str e) ++ rest)%string)
  /\ String.length (Str.take 100 (exn_str e))
     = Nat.min 100 (String.length (exn_str e))
  /\ ((String.length (exn_str e) <= 100)%nat -> occurs_in (exn_str e) m).
Proof.
  intros Hp st' m.
  destruct (scan_step_outcome strftime W get_flights origin destination
              adults seat_type sort_cheapest stops_arg limit st d r)
    as (_ & R & E).
  fold query_of in R, E. rewrite Hp in R, E.
  cbn [fst entries_of messages_of flat_map app snd] in R, E.
  rewrite app_nil_r in R.
  assert (Hocc : occurs_in (Str.take 100 (exn_str e)) m).
  { unfold m, err_msg.
    exists ("Error fetching flights for " ++ strftime d ++ " -> " ++ strftime r
            ++ ": " ++ exn_type e ++ ". Check server logs for details: ")%string,
           "..."%string.
    now rewrite !string_app_assoc. }
  split; [|split; [exact R|split; [reflexivity|split; [|split; [exact Hocc|
    split; [apply take_prefix|split; [apply take_length|]]]]]]].
  - unfold st', run_scan, scan. cbn [fold_left]. rewrite E.
    apply first_occurrences_in. right. now left.
  - unfold m, err_msg.
    exists ("Error fetching flights for " ++ strftime d ++ " -> " ++ strftime r
            ++ ": ")%string,
           (". Check server logs for details: " ++ Str.take 100 (exn_str e)
            ++ "...")%string.
    now rewrite !string_app_assoc.
  - intros Hlen. rewrite <- (take_all 100 (exn_str e) Hlen) at 1. exact Hocc.
Qed.

End ErrorReporting.

(* ------------------------------------------------------------------ *)
(** * The tools on concrete requests *)

(** The window of the scenario: 2025-09-10 is day 739504. *)
Example scenario_min_stay_one :
  Iso.strptime "2025-09-10" = Some 739504
  /\ Iso.strptime "2025-09-12" = Some 739506
  /\ build_date_list 739504 739506 = Done [739504; 739505; 739506]
  /\ date_pairs_to_check [739504; 739505; 739506] (Some 1) None
     = [(739504, 739505); (739504, 739506); (739505, 739506)].
Proof. repeat split. Qed.

Example scenario_sort_and_limit :
  processed_flights
    (filtered_flights
       (Some [Iso.flight (VInt 0) (VStr "$500"); Iso.flight (VInt 0) (VStr "$200")])
       None true) (Some 1)
  = [flight_to_dict (Iso.flight (VInt 0) (VStr "$200"))].
Proof. reflexivity. Qed.

Example enumeration_exact_witness :
  exists date_list,
    build_date_list 739504 739506 = Done date_list
    /\ NoDup (date_pairs_to_check date_list (Some 1) (Some 1)).
Proof.
  destruct (enumeration_exact 739504 739506 (Some 1) (Some 1))
    as (dl & H1 & _ & _ & _ & H2 & _);
    [unfold Calendar.MINORDINAL; lia | lia | unfold Calendar.MAXORDINAL; lia|].
  exists dl. split; [exact H1 | exact H2].
Defined.

(** C2 fails on the last representable date.  With the window
    9999-12-31 .. 9999-12-31 both strings parse and are in order, the loop
    that fills [date_list] appends the date and then increments it, and
    that increment raises [OverflowError]; nothing catches it, no pair is
    enumerated and the tool does not reply. *)
Theorem enumeration_overflows_on_last_date :
  Iso.strptime "9999-12-31" = Some Calendar.MAXORDINAL
  /\ Calendar.add_days Calendar.MAXORDINAL 1 = None
  /\ build_date_list Calendar.MAXORDINAL Calendar.MAXORDINAL
     = Uncaught "OverflowError"
  /\ find_all_flights_in_range Iso.strptime Iso.strftime Iso.script
       Iso.get_flights "JFK" "MIA" "9999-12-31" "9999-12-31" None None 1
       "economy" false None (Some 10) (Iso.start [Return None])
     = (Uncaught "OverflowError", Iso.start [Return None]).
Proof. repeat split. Qed.

Lemma invalid_window_rejected_witness :
  find_all_flights_in_range Iso.strptime Iso.strftime Iso.script
    Iso.get_flights "JFK" "MIA" "2025-13-01" "2025-09-20" None None 1
    "economy" false None (Some 10) (Iso.start [Return None])
  = (Done (error_payload "Invalid date format. Use YYYY-MM-DD." "ValueError"),
     Iso.start [Return None]).
Proof.
  refine (proj1 (invalid_window_rejected Iso.strptime Iso.strftime Iso.script
                   Iso.get_flights "JFK" "MIA" "2025-13-01" "2025-09-20" None
                   None 1 "economy" false None (Some 10)
                   (Iso.start [Return None]) _)).
  left. reflexivity.
Defined.

(** C1 as stated fails: of the three pairs of the window 2025-09-10 ..
    2025-09-12 with a minimum stay of one day, the provider fails on the
    second; the report has two result entries, none of them for the failing
    pair, and the failure shows in the error list only. *)
Lemma failure_isolation_counterexample :
  let e := mkExn "RuntimeError" false "No flights found" in
  let run :=
    find_all_flights_in_range Iso.strptime Iso.strftime Iso.script
      Iso.get_flights "JFK" "MIA" "2025-09-10" "2025-09-12" (Some 1) None 1
      "economy" false None (Some 10)
      (Iso.start [Return None; Raise e; Return None]) in
  List.length (date_pairs_to_check [739504; 739505; 739506] (Some 1) None) = 3%nat
  /\ exists reply,
       fst run = Done reply
       /\ items (field "all_round_trip_options" reply)
          = [JObj [("departure_date", JStr "2025-09-10");
                   ("return_date", JStr "2025-09-11"); ("flights", JList [])];
             JObj [("departure_date", JStr "2025-09-11");
                   ("return_date", JStr "2025-09-12"); ("flights", JList [])]]
       /\ List.length (items (field "all_round_trip_options" reply)) <> 3%nat
       /\ List.length (calls (snd run)) = 3%nat.
Proof.
  cbv zeta. split; [reflexivity|]. eexists. split; [vm_compute; reflexivity|].
  split; [reflexivity|]. split; [discriminate | reflexivity].
Qed.

Lemma failure_isolation_witness :
  exists reply,
    fst (find_all_flights_in_range Iso.strptime Iso.strftime Iso.script
           Iso.get_flights "JFK" "MIA" "2025-09-10" "2025-09-12" (Some 1) None
           1 "economy" false None (Some 10)
           (Iso.start [Return None;
                       Raise (mkExn "RuntimeError" false "No flights found");
                       Return None]))
    = Done reply
    /\ (List.length (items (field "all_round_trip_options" reply)) + 1)%nat
       = 3%nat.
Proof.
  destruct (failure_isolation Iso.strptime Iso.strftime Iso.script
              Iso.get_flights "JFK" "MIA" "2025-09-10" "2025-09-12" (Some 1)
              None 1 "economy" false None (Some 10)
              (Iso.start [Return None;
                          Raise (mkExn "RuntimeError" false "No flights found");
                          Return None]) 739504 739506)
    as (reply & H1 & _ & _ & _ & H2 & _);
    [reflexivity | reflexivity | unfold Calendar.MINORDINAL; lia | lia
     | unfold Calendar.MAXORDINAL; lia |].
  exists reply. split; [exact H1 | exact H2].
Defined.

Lemma empty_enumeration_reports_message_witness :
  find_all_flights_in_range Iso.strptime Iso.strftime Iso.script
    Iso.get_flights "JFK" "MIA" "2025-09-10" "2025-09-12" (Some 5) None 1
    "economy" false None (Some 10) (Iso.start [Return None])
  = (Done
       (JObj [("message",
               JStr "No flights found and no errors encountered for JFK -> MIA in the range 2025-09-10 to 2025-09-12.");
              ("errors_encountered", JNull)]),
     Iso.start [Return None]).
Proof.
  refine (proj1 (empty_enumeration_reports_message Iso.strptime Iso.strftime
                   Iso.script Iso.get_flights "JFK" "MIA" "2025-09-10"
                   "2025-09-12" (Some 5) None 1 "economy" false None (Some 10)
                   (Iso.start [Return None]) 739504 739506 _ _ _ _ _ _));
    [reflexivity | reflexivity | unfold Calendar.MINORDINAL; lia | lia
     | unfold Calendar.MAXORDINAL; lia | reflexivity].
Defined.

Lemma error_messages_deduplicated_witness :
  error_messages
    (scan Iso.strftime Iso.script Iso.get_flights "JFK" "MIA" 1 "economy"
       false None (Some 10) [(739504, 739505); (739504, 739505)]
       {| results_data := []; error_messages := [];
          provider :=
            Iso.start [Raise (mkExn "RuntimeError" false "No flights found");
                       Raise (mkExn "RuntimeError" false "No flights found")] |})
  = ["Error fetching flights for 2025-09-10 -> 2025-09-11: RuntimeError. Check server logs for details: No flights found..."].
Proof.
  destruct (error_messages_deduplicated Iso.strftime Iso.script Iso.get_flights
              "JFK" "MIA" 1 "economy" false None (Some 10)
              [(739504, 739505); (739504, 739505)]
              {| results_data := []; error_messages := [];
                 provider :=
                   Iso.start
                     [Raise (mkExn "RuntimeError" false "No flights found");
                      Raise (mkExn "RuntimeError" false "No flights found")] |})
    as (_ & _ & H & _); [constructor|].
  rewrite H. reflexivity.
Defined.

Lemma provider_failure_recorded_witness :
  occurs_in "No flights found"
    (err_msg Iso.strftime 739504 739505
       (mkExn "RuntimeError" false "No flights found")).
Proof.
  refine (proj2 (proj2 (proj2 (proj2 (proj2 (proj2 (proj2
    (provider_failure_recorded Iso.strftime Iso.script Iso.get_flights
       "JFK" "MIA" 1 "economy" false None (Some 10)
       {| results_data := []; error_messages := [];
          provider :=
            Iso.start [Raise (mkExn "RuntimeError" false "No flights found")] |}
       739504 739505 (mkExn "RuntimeError" false "No flights found") [] _)))))))
    _).
  - reflexivity.
  - cbn. lia.
Defined.

(** C7 as stated fails for a long message: of an exception message of 101
    characters only the first 100 reach the recorded message, so the
    underlying text is not in it. *)
Lemma message_truncated_counterexample :
  let e := mkExn "RuntimeError" false (Str.repeat_char "a" 100 ++ "Z") in
  let run :=
    find_all_flights_in_range Iso.strptime Iso.strftime Iso.script
      Iso.get_flights "JFK" "MIA" "2025-09-10" "2025-09-10" None None 1
      "economy" false None (Some 10) (Iso.start [Raise e]) in
  exists m,
    fst run = Done (JObj [("all_round_trip_options", JList []);
                          ("errors_encountered", JList [JStr m])])
    /\ m = err_msg Iso.strftime 739504 739504 e
    /\ String.length (exn_str e) = 101%nat
    /\ ~ occurs_in (exn_str e) m.
Proof.
  cbv zeta. eexists. split; [vm_compute; reflexivity|].
  split; [vm_compute; reflexivity|]. split; [reflexivity|].
  intros H. apply (occurs_mem_char "Z") in H; [|reflexivity].
  vm_compute in H. discriminate.
Qed.

(* ------------------------------------------------------------------ *)
(** * Further properties of the helpers and the tools *)

(** ** Prices *)

(** X1. A price written with digits, dollar signs and commas only, with at
    least one digit and no more digits than [int()] accepts (4300), parses
    to the number its digits spell: the signs and separators are dropped
    wherever they stand.  With more digits than that it has no parsed
    value. *)
Theorem parse_price_reads_digits (s : string) :
  all_chars is_price_char s = true ->
  any_char Str.is_digit s = true ->
  (Str.count_digits s <= Str.INT_MAX_STR_DIGITS ->
   parse_price (VStr s) = Fin (digits_value 0 s))
  /\ (Str.INT_MAX_STR_DIGITS < Str.count_digits s ->
      parse_price (VStr s) = Inf).
Proof.
  intros Hall Hany. split.
  - intros Hlim. now apply parse_price_of_digits.
  - intros Hlim. now apply parse_price_over_limit.
Qed.

Lemma parse_price_reads_digits_witness :
  parse_price (VStr "$1,268") = Fin 1268.
Proof.
  refine (proj1 (parse_price_reads_digits "$1,268" eq_refl eq_refl) _).
  vm_compute. discriminate.
Defined.

(** X2. A price that holds any character other than a digit, white space,
    a sign, an underscore, a dollar sign or a comma (a decimal point, a
    letter, another currency sign) has no parsed value: its key is
    infinity, so such an offer sorts after every priced one. *)
Theorem parse_price_rejects_other_characters (s : string) (c : ascii) :
  Str.mem_char c s = true ->
  is_number_char c = false ->
  parse_price (VStr s) = Inf
  /\ forall f g : Flight,
       price f = VStr s ->
       is_fin (parse_price (price g)) = true ->
       sort_flights true [f; g] = [g; f].
Proof.
  intros M Hc.
  pose proof (parse_price_of_other_char s c M Hc) as Hinf.
  split; [exact Hinf|].
  intros f g Hf Hg. unfold sort_flights. cbn [sorted insert_by].
  rewrite Hf, Hinf. destruct (parse_price (price g)); [reflexivity|discriminate Hg].
Qed.

Lemma parse_price_rejects_other_characters_witness :
  parse_price (VStr "$268.50") = Inf.
Proof.
  exact (proj1 (parse_price_rejects_other_characters "$268.50" "." eq_refl
                  eq_refl)).
Defined.

(** ** Sorting composed with the other steps *)

Section SortedCompose.
Context {A : Type} (key : A -> price_key).

Lemma insert_by_head (x : A) (l : list A) :
  StronglySorted (fun a b => key_le (key a) (key b)) (x :: l) ->
  insert_by key x l = x :: l.
Proof.
  intros H. apply StronglySorted_inv in H. destruct H as [_ H].
  destruct l as [|y rest]; [reflexivity|]. cbn [insert_by].
  apply Forall_inv in H. unfold key_le in H. now rewrite H.
Qed.

Lemma sorted_fixed (l : list A) :
  StronglySorted (fun a b => key_le (key a) (key b)) l -> sorted key l = l.
Proof.
  induction l as [|x rest IH]; intros H; [reflexivity|].
  cbn [sorted]. rewrite IH by now apply StronglySorted_inv in H.
  now apply insert_by_head.
Qed.

Lemma filter_sorted_list (p : A -> bool) (l : list A) :
  StronglySorted (fun a b => key_le (key a) (key b)) l ->
  StronglySorted (fun a b => key_le (key a) (key b)) (filter p l).
Proof.
  induction 1 as [|x rest Hs IH Hall]; cbn [filter]; [constructor|].
  destruct (p x); [|exact IH]. constructor; [exact IH|].
  apply Forall_forall. intros y Hy. apply filter_In in Hy.
  rewrite Forall_forall in Hall. now apply Hall.
Qed.

Lemma insert_by_filter (p : A -> bool) (x : A) (l : list A) :
  StronglySorted (fun a b => key_le (key a) (key b)) l ->
  filter p (insert_by key x l)
  = if p x then insert_by key x (filter p l) else filter p l.
Proof.
  induction 1 as [|y rest Hs IH Hall]; cbn [insert_by filter].
  - now destruct (p x).
  - destruct (key_ltb (key y) (key x)) eqn:E; cbn [filter].
    + rewrite IH. destruct (p y), (p x); cbn [insert_by]; try reflexivity.
      now rewrite E.
    + destruct (p x) eqn:Px; [|reflexivity].
      symmetry. apply insert_by_head.
      match goal with
      | |- StronglySorted _ ?l =>
          replace l with (filter p (x :: y :: rest))
            by (cbn [filter]; now rewrite Px)
      end.
      apply filter_sorted_list. constructor; [now constructor|].
      constructor; [exact E|].
      eapply Forall_impl; [|exact Hall].
      intros z Hz. eapply key_le_trans; [exact E | exact Hz].
Qed.

Lemma sorted_filter (p : A -> bool) (l : list A) :
  filter p (sorted key l) = sorted key (filter p l).
Proof.
  induction l as [|x rest IH]; [reflexivity|].
  cbn [sorted filter]. rewrite insert_by_filter by apply sorted_sorted.
  rewrite IH. now destruct (p x).
Qed.


End SortedCompose.

(** X3. The stop filter and the price sort commute: the tools filter and
    then sort, and sorting first and filtering afterwards would give the
    same list, in the same order. *)
Theorem filter_and_sort_commute (stops_arg : option Z) (sort_cheapest : bool)
  (flights_list : list Flight) :
  sort_flights sort_cheapest (filter_stops stops_arg flights_list)
  = filter_stops stops_arg (sort_flights sort_cheapest flights_list).
Proof.
  destruct sort_cheapest, stops_arg as [k|]; cbn [sort_flights filter_stops];
    try reflexivity.
  symmetry. apply sorted_filter.
Qed.



(** ** The days of a month *)

Lemma days_before_year_succ (y : Z) :
  Calendar.days_before_year (y + 1)
  = Calendar.days_before_year y + 365 + (if Calendar.is_leap y then 1 else 0).
Proof.
  unfold Calendar.days_before_year, Calendar.is_leap. cbv zeta.
  replace (y + 1 - 1) with y by lia.
  destruct (y mod 4 =? 0) eqn:E4, (y mod 100 =? 0) eqn:E100,
           (y mod 400 =? 0) eqn:E400;
    cbn [andb orb negb];
    rewrite ?Z.eqb_eq, ?Z.eqb_neq in *;
    Z.to_euclidean_division_equations; lia.
Qed.

Lemma days_before_year_bounds (y : Z) :
  1 <= y <= 10000 -> 0 <= Calendar.days_before_year y <= Calendar.MAXORDINAL.
Proof.
  unfold Calendar.days_before_year, Calendar.MAXORDINAL. cbv zeta. intros H.
  Z.to_euclidean_division_equations; lia.
Qed.

Lemma days_before_month_succ (y m : Z) :
  1 <= m ->
  Calendar.days_before_month y (m + 1)
  = Calendar.days_before_month y m + Calendar.days_in_month y m.
Proof.
  intros Hm. unfold Calendar.days_before_month.
  replace (Z.to_nat (m + 1 - 1)) with (S (Z.to_nat (m - 1))) by lia.
  cbn [Calendar.days_before_month_aux]. do 2 f_equal. lia.
Qed.

Lemma days_in_month_bounds (y m : Z) : 28 <= Calendar.days_in_month y m <= 31.
Proof.
  unfold Calendar.days_in_month.
  destruct (m =? 2); [destruct (Calendar.is_leap y); lia|].
  destruct ((m =? 4) || (m =? 6) || (m =? 9) || (m =? 11)); lia.
Qed.

Lemma month_span (y m : Z) :
  1 <= m <= 12 ->
  0 <= Calendar.days_before_month y m
  /\ Calendar.days_before_month y m + Calendar.days_in_month y m
     <= 365 + (if Calendar.is_leap y then 1 else 0)
  /\ (m = 12 ->
      Calendar.days_before_month y m + Calendar.days_in_month y m
      = 365 + (if Calendar.is_leap y then 1 else 0)).
Proof.
  intros Hm.
  assert (C : m = 1 \/ m = 2 \/ m = 3 \/ m = 4 \/ m = 5 \/ m = 6 \/ m = 7
              \/ m = 8 \/ m = 9 \/ m = 10 \/ m = 11 \/ m = 12) by lia.
  repeat (destruct C as [->|C]); try subst m;
    unfold Calendar.days_before_month;
    match goal with
    | |- context [Z.to_nat ?e] =>
        let n := eval vm_compute in (Z.to_nat e) in
        change (Z.to_nat e) with n
    end;
    cbn [Calendar.days_before_month_aux Z.of_nat Pos.of_succ_nat Pos.succ];
    unfold Calendar.days_in_month;
    destruct (Calendar.is_leap y); cbn; lia.
Qed.

Lemma ymd2ord_valid (y m d : Z) :
  1 <= y <= 9999 -> 1 <= m <= 12 -> 1 <= d <= Calendar.days_in_month y m ->
  Calendar.ymd2ord y m d
  = Some (Calendar.days_before_year y + Calendar.days_before_month y m + d).
Proof.
  intros Hy Hm Hd. unfold Calendar.ymd2ord.
  replace ((1 <=? y) && (y <=? 9999) && (1 <=? m) && (m <=? 12) && (1 <=? d)
           && (d <=? Calendar.days_in_month y m)) with true; [reflexivity|].
  symmetry. repeat (apply andb_true_iff; split); apply Z.leb_le; lia.
Qed.

Lemma ymd2ord_invalid (y m d : Z) :
  y < 1 \/ 9999 < y \/ m < 1 \/ 12 < m -> Calendar.ymd2ord y m d = None.
Proof.
  intros H. unfold Calendar.ymd2ord.
  replace ((1 <=? y) && (y <=? 9999) && (1 <=? m) && (m <=? 12))
    with false; [reflexivity|].
  symmetry.
  destruct (1 <=? y) eqn:E1; [|reflexivity].
  destruct (y <=? 9999) eqn:E2; [|reflexivity].
  destruct (1 <=? m) eqn:E3; [|reflexivity].
  destruct (m <=? 12) eqn:E4; [|reflexivity].
  rewrite ?Z.leb_le in *. lia.
Qed.

Lemma ordinal_bounds (y m d : Z) :
  1 <= y <= 9999 -> 1 <= m <= 12 -> 1 <= d <= Calendar.days_in_month y m ->
  Calendar.MINORDINAL
  <= Calendar.days_before_year y + Calendar.days_before_month y m + d
  <= Calendar.MAXORDINAL.
Proof.
  intros Hy Hm Hd.
  destruct (month_span y m Hm) as (H0 & H1 & _).
  pose proof (days_before_year_bounds y ltac:(lia)) as By.
  pose proof (days_before_year_bounds (y + 1) ltac:(lia)) as By1.
  rewrite days_before_year_succ in By1.
  unfold Calendar.MINORDINAL in *. lia.
Qed.

Lemma nth_error_zrange (n : nat) :
  forall (s : Z) (i : nat),
    (i < n)%nat -> nth_error (zrange s n) i = Some (s + Z.of_nat i).
Proof.
  induction n as [|k IH]; intros s i Hi; [lia|].
  destruct i as [|i]; cbn [zrange nth_error].
  - f_equal. lia.
  - rewrite IH by lia. f_equal. lia.
Qed.

Lemma length_zrange (n : nat) (s : Z) : List.length (zrange s n) = n.
Proof. revert s. induction n as [|k IH]; intros s; cbn; [reflexivity|now rewrite IH]. Qed.

Lemma fits_c_int_small (z : Z) : -10000 <= z <= 10000 -> fits_c_int z = true.
Proof.
  intros H. unfold fits_c_int. apply andb_true_iff.
  change (2 ^ 31) with 2147483648.
  split; [apply Z.leb_le | apply Z.ltb_lt]; lia.
Qed.

(** The first of the month after [year]-[month] is [days_in_month] days
    after its first, when the month is not December 9999. *)
Lemma get_date_range_month (year month : Z) :
  1 <= year <= 9999 -> 1 <= month <= 12 ->
  ~ (year = 9999 /\ month = 12) ->
  get_date_range year month
  = Done (zrange (Calendar.days_before_year year
                  + Calendar.days_before_month year month + 1)
            (Z.to_nat (Calendar.days_in_month year month))).
Proof.
  intros Hy Hm Hlast. unfold get_date_range.
  pose proof (days_in_month_bounds year month) as Hdim.
  pose proof (ordinal_bounds year month 1 Hy Hm ltac:(lia)) as Hfirst.
  set (first := Calendar.days_before_year year
                + Calendar.days_before_month year month + 1) in *.
  assert (Hstart : py_date year month 1 = DateOk first).
  { unfold py_date. rewrite !fits_c_int_small by lia. cbn [andb].
    now rewrite ymd2ord_valid by lia. }
  assert (Hnext :
            (if month =? 12 then py_date (year + 1) 1 1
             else py_date year (month + 1) 1)
            = DateOk (first + Calendar.days_in_month year month)).
  { unfold py_date. destruct (month =? 12) eqn:E.
    - apply Z.eqb_eq in E.
      rewrite !fits_c_int_small by lia. cbn [andb].
      pose proof (days_in_month_bounds (year + 1) 1).
      rewrite ymd2ord_valid by lia. f_equal.
      destruct (month_span year month Hm) as (_ & _ & H12).
      specialize (H12 E). rewrite days_before_year_succ.
      unfold first. change (Calendar.days_before_month (year + 1) 1) with 0. lia.
    - apply Z.eqb_neq in E.
      rewrite !fits_c_int_small by lia. cbn [andb].
      pose proof (days_in_month_bounds year (month + 1)).
      rewrite ymd2ord_valid by lia. f_equal.
      rewrite days_before_month_succ by lia. unfold first. lia. }
  rewrite Hstart.
  rewrite Hnext.
  assert (Hend : first + Calendar.days_in_month year month <= Calendar.MAXORDINAL).
  { destruct (Z.eq_dec month 12) as [E|E].
    - destruct (month_span year month Hm) as (_ & _ & H12). specialize (H12 E).
      pose proof (days_in_month_bounds (year + 1) 1) as D1.
      pose proof (ordinal_bounds (year + 1) 1 1 ltac:(lia) ltac:(lia) ltac:(lia))
        as B.
      change (Calendar.days_before_month (year + 1) 1) with 0 in B.
      rewrite days_before_year_succ in B. unfold first. lia.
    - pose proof (days_in_month_bounds year (month + 1)).
      pose proof (ordinal_bounds year (month + 1) 1 Hy ltac:(lia) ltac:(lia)) as B.
      rewrite days_before_month_succ in B by lia. unfold first. lia. }
  unfold Calendar.add_days.
  replace ((Calendar.MINORDINAL
            <=? first + Calendar.days_in_month year month + -1)
           && (first + Calendar.days_in_month year month + -1
               <=? Calendar.MAXORDINAL)) with true.
  2:{ symmetry. apply andb_true_iff. unfold Calendar.MINORDINAL in *.
      split; apply Z.leb_le; lia. }
  rewrite (date_list_loop_range
             (Z.to_nat (first + Calendar.days_in_month year month + -1 - first + 1)));
    [|lia|lia|reflexivity|lia].
  cbn [app]. do 2 f_equal. lia.
Qed.

(** X5. For a month of the calendar other than December 9999,
    [get_date_range] yields the days of that month, once each and in order:
    as many dates as the month has days, the [k]-th being the date
    [year]-[month]-[k]. *)
Theorem get_date_range_yields_month (year month : Z) :
  1 <= year <= 9999 -> 1 <= month <= 12 ->
  ~ (year = 9999 /\ month = 12) ->
  exists dates,
    get_date_range year month = Done dates
    /\ Z.of_nat (List.length dates) = Calendar.days_in_month year month
    /\ forall k, 1 <= k <= Calendar.days_in_month year month ->
                 nth_error dates (Z.to_nat (k - 1))
                 = Calendar.ymd2ord year month k.
Proof.
  intros Hy Hm Hlast. eexists. split; [now apply get_date_range_month|].
  pose proof (days_in_month_bounds year month) as Hdim.
  split; [rewrite length_zrange; lia|].
  intros k Hk. rewrite nth_error_zrange by lia.
  rewrite ymd2ord_valid by lia. f_equal. lia.
Qed.

Lemma get_date_range_yields_month_witness :
  exists dates,
    get_date_range 2024 2 = Done dates
    /\ Z.of_nat (List.length dates) = 29.
Proof.
  destruct (get_date_range_yields_month 2024 2) as (dates & H1 & H2 & _);
    [lia | lia | lia |].
  exists dates. split; [exact H1 | exact H2].
Defined.

(** X6. On arguments that fit a C [int], [get_date_range] never raises, and
    it yields nothing exactly when the year is outside 1..9999, the month is
    outside 1..12, or the month is December 9999 (the first day of the
    following month cannot be built, and the handler swallows that
    [ValueError] like the others). *)
Theorem get_date_range_empty_cases (year month : Z) :
  fits_c_int year = true -> fits_c_int month = true ->
  exists dates,
    get_date_range year month = Done dates
    /\ (dates = []
        <-> year < 1 \/ 9999 < year \/ month < 1 \/ 12 < month
            \/ (year = 9999 /\ month = 12)).
Proof.
  intros Fy Fm.
  destruct (Z_lt_le_dec year 1) as [Hy1|Hy1];
    [|destruct (Z_lt_le_dec 9999 year) as [Hy2|Hy2];
      [|destruct (Z_lt_le_dec month 1) as [Hm1|Hm1];
        [|destruct (Z_lt_le_dec 12 month) as [Hm2|Hm2]]]].
  1-4: exists []; split; [|split; [intros _; lia | reflexivity]];
       unfold get_date_range, py_date; rewrite Fy, Fm; cbn [andb fits_c_int];
       now rewrite ymd2ord_invalid by lia.
  destruct (Z.eq_dec year 9999) as [Ey|Ey];
    [destruct (Z.eq_dec month 12) as [Em|Em]|].
  - subst. exists []. split; [reflexivity|]. split; [intros _; lia | reflexivity].
  - eexists. split; [apply get_date_range_month; lia|].
    pose proof (days_in_month_bounds year month) as Hdim. split.
    + intros H. apply (f_equal (@List.length Z)) in H.
      rewrite length_zrange in H. cbn in H. lia.
    + lia.
  - eexists. split; [apply get_date_range_month; lia|].
    pose proof (days_in_month_bounds year month) as Hdim. split.
    + intros H. apply (f_equal (@List.length Z)) in H.
      rewrite length_zrange in H. cbn in H. lia.
    + lia.
Qed.

Lemma get_date_range_empty_cases_witness :
  exists dates,
    get_date_range 9999 12 = Done dates
    /\ (dates = []
        <-> 9999 < 1 \/ 9999 < 9999 \/ 12 < 1 \/ 12 < 12
            \/ (9999 = 9999 /\ 12 = 12)).
Proof.
  exact (get_date_range_empty_cases 9999 12 eq_refl eq_refl).
Defined.

(** ** Replies of the single-query tools *)

Section SingleQueryReplies.
Variable strptime : string -> option Z.
Variable W : Type.
Variable get_flights : query -> W -> outcome (option (list Flight)) * W.
Variables origin destination : string.
Variable adults : Z.
Variable seat_type : string.
Variable sort_cheapest : bool.
Variables stops_arg limit : option Z.

(** X7. Whatever it is given, [get_flights_on_date] replies with a document
    of one key, [flights], [message] or [error]; it asks the provider once
    when the date parses and not at all otherwise; and the document is the
    [error] one exactly when the date does not parse or the provider
    raises. *)
Theorem get_flights_on_date_reply_shape (date : string)
  (st : provider_state W) :
  let q := one_way_query origin destination date adults seat_type in
  let run :=
    get_flights_on_date strptime W get_flights origin destination date adults
      seat_type sort_cheapest stops_arg limit st in
  (top_keys (fst run) = ["flights"] \/ top_keys (fst run) = ["message"]
   \/ top_keys (fst run) = ["error"])
  /\ calls (snd run)
     = calls st ++ (match strptime date with Some _ => [q] | None => [] end)
  /\ (top_keys (fst run) = ["error"]
      <-> strptime date = None \/ raised get_flights q (world st) = true).
Proof.
  cbv zeta. unfold get_flights_on_date, call_provider, raised.
  destruct (strptime date) as [d|].
  - destruct (get_flights
                (one_way_query origin destination date adults seat_type)
                (world st)) as [[result|e] w]; cbn [fst snd is_raise calls].
    + destruct (nonempty (filtered_flights result stops_arg sort_cheapest));
        cbn; (split; [tauto|]); (split; [reflexivity|]);
        (split; [discriminate | intros [H|H]; discriminate]).
    + destruct (exn_is_value_error e); cbn;
        (split; [tauto|]); (split; [reflexivity|]); tauto.
  - cbn. rewrite app_nil_r. tauto.
Qed.

(** X8. [get_round_trip_flights] likewise: one key among
    [round_trip_options], [message] and [error]; one provider round when
    both dates parse, none when either does not; the [error] document
    exactly when a date does not parse or the provider raises. *)
Theorem get_round_trip_flights_reply_shape (departure_date return_date : string)
  (st : provider_state W) :
  let q := round_trip_query origin destination departure_date return_date
             adults seat_type in
  let run :=
    get_round_trip_flights strptime W get_flights origin destination
      departure_date return_date adults seat_type sort_cheapest stops_arg
      limit st in
  (top_keys (fst run) = ["round_trip_options"]
   \/ top_keys (fst run) = ["message"] \/ top_keys (fst run) = ["error"])
  /\ calls (snd run)
     = calls st ++ (match strptime departure_date, strptime return_date with
                    | Some _, Some _ => [q]
                    | _, _ => []
                    end)
  /\ (top_keys (fst run) = ["error"]
      <-> strptime departure_date = None \/ strptime return_date = None
          \/ raised get_flights q (world st) = true).
Proof.
  cbv zeta. unfold get_round_trip_flights, call_provider, raised.
  destruct (strptime departure_date) as [d|];
    [destruct (strptime return_date) as [r|]|].
  - destruct (get_flights
                (round_trip_query origin destination departure_date
                   return_date adults seat_type)
                (world st)) as [[result|e] w]; cbn [fst snd is_raise calls].
    + destruct (nonempty (filtered_flights result stops_arg sort_cheapest));
        cbn; (split; [tauto|]); (split; [reflexivity|]);
        (split; [discriminate | intros [H|[H|H]]; discriminate]).
    + destruct (exn_is_value_error e); cbn;
        (split; [tauto|]); (split; [reflexivity|]); tauto.
  - cbn. rewrite app_nil_r. tauto.
  - cbn. rewrite app_nil_r. tauto.
Qed.

(** X9. When the provider raises inside [get_flights_on_date], the reply
    shows the exception's class at most, never its message: a [ValueError]
    gives the very document of an unparsable date, although the date
    parsed, and any other exception gives "An unexpected error occurred."
    with the type name.  Two exceptions of one class and type name get the
    same reply. *)
Theorem get_flights_on_date_provider_error (date : string)
  (st : provider_state W) (d : Z) (e : exn) (w : W) :
  strptime date = Some d ->
  get_flights (one_way_query origin destination date adults seat_type)
    (world st) = (Raise e, w) ->
  let reply :=
    fst (get_flights_on_date strptime W get_flights origin destination date
           adults seat_type sort_cheapest stops_arg limit st) in
  (exn_is_value_error e = true ->
   reply = error_payload
             ("Invalid date format: '" ++ date ++ "'. Please use YYYY-MM-DD.")%string
             "ValueError")
  /\ (exn_is_value_error e = false ->
      reply = error_payload "An unexpected error occurred." (exn_type e))
  /\ reply = fst (get_flights_on_date strptime W
                    (fun q' w' =>
                       (Raise {| exn_type := exn_type e;
                                 exn_is_value_error := exn_is_value_error e;
                                 exn_str := "" |}, w'))
                    origin destination date adults seat_type sort_cheapest
                    stops_arg limit st).
Proof.
  intros Hd Hp. cbv zeta. unfold get_flights_on_date, call_provider.
  rewrite Hd, Hp. cbn [fst exn_type exn_is_value_error].
  destruct (exn_is_value_error e); cbn [fst]; repeat split;
    intros; try reflexivity; discriminate.
Qed.

End SingleQueryReplies.

Lemma get_flights_on_date_provider_error_witness :
  fst (get_flights_on_date Iso.strptime Iso.script Iso.get_flights
         "SFO" "JFK" "2025-07-20" 1 "economy" false None (Some 10)
         (Iso.start [Raise (mkExn "JSONDecodeError" true "Expecting value")]))
  = error_payload "Invalid date format: '2025-07-20'. Please use YYYY-MM-DD."
      "ValueError".
Proof.
  refine (proj1 (get_flights_on_date_provider_error Iso.strptime Iso.script
                   Iso.get_flights "SFO" "JFK" 1 "economy" false None (Some 10)
                   "2025-07-20"
                   (Iso.start [Raise (mkExn "JSONDecodeError" true "Expecting value")])
                   739452 (mkExn "JSONDecodeError" true "Expecting value") []
                   _ _) _); reflexivity.
Defined.

(** ** More on the range scan *)

Lemma date_list_loop_extends (fuel : nat) :
  forall (current end_date : Z) (acc dates : list Z),
    date_list_loop fuel current end_date acc = Done dates ->
    exists rest, dates = acc ++ rest /\ (current <= end_date -> rest <> []).
Proof.
  induction fuel as [|fuel IH]; intros current end_date acc dates;
    cbn [date_list_loop]; destruct (current <=? end_date) eqn:G;
    try discriminate.
  - intros [= <-]. exists []. rewrite app_nil_r. split; [reflexivity|].
    apply Z.leb_gt in G. lia.
  - destruct (Calendar.add_days current 1) as [next|]; [|discriminate].
    intros H. destruct (IH _ _ _ _ H) as (rest & -> & _).
    exists (current :: rest). rewrite <- app_assoc. split; [reflexivity|].
    discriminate.
  - intros [= <-]. exists []. rewrite app_nil_r. split; [reflexivity|].
    apply Z.leb_gt in G. lia.
Qed.

Lemma build_date_list_nonempty (start_date end_date : Z) (dates : list Z) :
  start_date <= end_date ->
  build_date_list start_date end_date = Done dates -> nonempty dates = true.
Proof.
  intros Hle H. unfold build_date_list in H.
  destruct (date_list_loop_extends _ _ _ _ _ H) as (rest & -> & Hne).
  cbn [app]. destruct rest; [now destruct (Hne Hle) | reflexivity].
Qed.

Lemma first_occurrences_nil (msgs : list string) :
  first_occurrences [] msgs = [] <-> msgs = [].
Proof.
  destruct msgs as [|m rest]; cbn; split; congruence.
Qed.

Lemma messages_of_nil (strftime : Z -> string) (pairs : list (Z * Z)) :
  forall outs : list (outcome (option (list Flight))),
    List.length outs = List.length pairs ->
    (messages_of strftime (combine pairs outs) = []
     <-> filter is_raise outs = []).
Proof.
  induction pairs as [|p rest IH]; intros [|o os] Hlen; try discriminate;
    [cbn; tauto|].
  injection Hlen as Hlen. unfold messages_of in *.
  cbn [combine flat_map filter snd fst].
  destruct o as [a|e]; cbn [is_raise app].
  - now apply IH.
  - split; discriminate.
Qed.

Lemma report_keys {W : Type} (origin destination s e : string)
  (st : scan_state W) :
  top_keys (report W origin destination s e st)
  = if nonempty (results_data st) || nonempty (error_messages st)
    then ["all_round_trip_options"; "errors_encountered"]
    else ["message"; "errors_encountered"].
Proof.
  unfold report.
  now destruct (nonempty (results_data st) || nonempty (error_messages st)).
Qed.

Section RangeScanReplies.
Variable strptime : string -> option Z.
Variable strftime : Z -> string.
Variable W : Type.
Variable get_flights : query -> W -> outcome (option (list Flight)) * W.
Variables origin destination start_date_str end_date_str : string.
Variables min_stay_days max_stay_days : option Z.
Variable adults : Z.
Variable seat_type : string.
Variable sort_cheapest : bool.
Variables stops_arg limit : option Z.

Let tool :=
  find_all_flights_in_range strptime strftime W get_flights origin
    destination start_date_str end_date_str min_stay_days max_stay_days
    adults seat_type sort_cheapest stops_arg limit.

(** X10. The reply "No valid dates in the specified range." of line 280 is
    never given: whenever both dates parse and are in order, the list of
    dates holds the start date at least. *)
Theorem no_valid_dates_reply_unreachable (st : provider_state W) :
  fst (tool st)
  <> Done (JObj [("error", JStr "No valid dates in the specified range.")]).
Proof.
  unfold tool, find_all_flights_in_range.
  destruct (strptime start_date_str) as [a|]; [|discriminate].
  destruct (strptime end_date_str) as [b|]; [|discriminate].
  destruct (a >? b) eqn:G; [discriminate|].
  rewrite Z.gtb_ltb in G. apply Z.ltb_ge in G.
  destruct (build_date_list a b) as [dates|t|] eqn:E; try discriminate.
  rewrite (build_date_list_nonempty a b dates G E). cbn [negb fst].
  unfold report.
  match goal with
  | |- context [if ?c then _ else _] => destruct c
  end; discriminate.
Qed.

(** The state the scan ends in, on a window that parses and is in order. *)
Lemma range_scan_final (st : provider_state W) (start_date end_date : Z) :
  strptime start_date_str = Some start_date ->
  strptime end_date_str = Some end_date ->
  Calendar.MINORDINAL <= start_date ->
  start_date <= end_date ->
  end_date < Calendar.MAXORDINAL ->
  let pairs :=
    date_pairs_to_check (date_range start_date end_date)
      min_stay_days max_stay_days in
  let qs :=
    map (range_query strftime origin destination adults seat_type) pairs in
  let outs := fst (provider_trace get_flights qs (world st)) in
  exists final,
    tool st
    = (Done (report W origin destination start_date_str end_date_str final),
       provider final)
    /\ results_data final
       = entries_of strftime sort_cheapest stops_arg limit (combine pairs outs)
    /\ error_messages final
       = first_occurrences [] (messages_of strftime (combine pairs outs))
    /\ calls (provider final) = calls st ++ qs
    /\ List.length outs = List.length pairs.
Proof.
  intros Hs He Hmin Hle Hmax pairs qs outs.
  pose proof (range_scan_runs strptime strftime W get_flights origin
                destination start_date_str end_date_str min_stay_days
                max_stay_days adults seat_type sort_cheapest stops_arg limit
                st _ _ Hs He Hmin Hle Hmax) as Hrun.
  cbv zeta in Hrun. fold pairs in Hrun.
  destruct (scan_spec strftime W get_flights origin destination adults
              seat_type sort_cheapest stops_arg limit pairs
              {| results_data := []; error_messages := []; provider := st |})
    as (H1 & H2 & H3 & _ & H5).
  cbn [results_data error_messages provider app] in H1, H2, H3, H5.
  eexists. split; [exact Hrun|]. auto.
Qed.

(** X11. On a window that parses and is in order, the reply is the "No
    flights found and no errors encountered" document exactly when no date
    pair was enumerated; as soon as one pair is tried the reply holds the
    results and the error list. *)
Theorem fallback_message_iff_no_pairs (st : provider_state W)
  (start_date end_date : Z) :
  strptime start_date_str = Some start_date ->
  strptime end_date_str = Some end_date ->
  Calendar.MINORDINAL <= start_date ->
  start_date <= end_date ->
  end_date < Calendar.MAXORDINAL ->
  let pairs :=
    date_pairs_to_check (date_range start_date end_date)
      min_stay_days max_stay_days in
  exists reply,
    fst (tool st) = Done reply
    /\ (top_keys reply = ["message"; "errors_encountered"] <-> pairs = [])
    /\ (top_keys reply = ["all_round_trip_options"; "errors_encountered"]
        <-> pairs <> []).
Proof.
  intros Hs He Hmin Hle Hmax pairs.
  destruct (range_scan_final st _ _ Hs He Hmin Hle Hmax)
    as (final & Hrun & H1 & H2 & _ & H5).
  fold pairs in H1, H2, H5. rewrite Hrun. cbn [fst].
  eexists. split; [reflexivity|]. rewrite report_keys, H1, H2.
  destruct pairs as [|p rest].
  - cbn. split; split; intros H;
      first [reflexivity | discriminate | discriminate H | congruence].
  - destruct (fst (provider_trace get_flights
                     (map (range_query strftime origin destination adults
                             seat_type) (p :: rest)) (world st)))
      as [|o os]; [discriminate H5|].
    cbn [combine]. unfold entries_of, messages_of.
    cbn [flat_map snd fst].
    destruct o as [a|e]; cbn; rewrite ?orb_true_r; split; split; intros H;
      first [reflexivity | discriminate | discriminate H].
Qed.

(** X12. On such a window the [errors_encountered] entry of the reply is
    null exactly when no provider round raised. *)
Theorem errors_null_iff_no_failure (st : provider_state W)
  (start_date end_date : Z) :
  strptime start_date_str = Some start_date ->
  strptime end_date_str = Some end_date ->
  Calendar.MINORDINAL <= start_date ->
  start_date <= end_date ->
  end_date < Calendar.MAXORDINAL ->
  let pairs :=
    date_pairs_to_check (date_range start_date end_date)
      min_stay_days max_stay_days in
  let qs :=
    map (range_query strftime origin destination adults seat_type) pairs in
  let outs := fst (provider_trace get_flights qs (world st)) in
  exists reply,
    fst (tool st) = Done reply
    /\ (field "errors_encountered" reply = Some JNull
        <-> filter is_raise outs = []).
Proof.
  intros Hs He Hmin Hle Hmax pairs qs outs.
  destruct (range_scan_final st _ _ Hs He Hmin Hle Hmax)
    as (final & Hrun & _ & H2 & _ & H5).
  fold pairs qs outs in H2, H5. rewrite Hrun. cbn [fst].
  eexists. split; [reflexivity|].
  destruct (items_of_report origin destination start_date_str end_date_str
              final) as (_ & I2 & _).
  rewrite I2, H2, <- (messages_of_nil strftime pairs outs H5),
    <- first_occurrences_nil.
  unfold errors_encountered.
  destruct (first_occurrences [] (messages_of strftime (combine pairs outs)));
    cbn; split; congruence.
Qed.

End RangeScanReplies.

(** ** How many pairs a window has *)

Lemma in_date_pairs (start_date end_date : Z)
  (min_stay_days max_stay_days : option Z) (d r : Z) :
  start_date <= end_date ->
  In (d, r)
    (date_pairs_to_check (date_range start_date end_date) min_stay_days
       max_stay_days)
  <-> start_date <= d /\ d <= r /\ r <= end_date
      /\ stay_ok min_stay_days max_stay_days (r - d).
Proof.
  intros Hle. rewrite date_pairs_to_check_suffixes. unfold date_range.
  rewrite in_suffix_pairs_zrange. rewrite Z2Nat.id by lia.
  split; intros (H1 & H2 & H3 & H4);
    (split; [lia|split; [lia|split; [lia|exact H4]]]).
Qed.

Lemma date_pairs_nodup (start_date end_date : Z)
  (min_stay_days max_stay_days : option Z) :
  NoDup (date_pairs_to_check (date_range start_date end_date) min_stay_days
           max_stay_days).
Proof.
  rewrite date_pairs_to_check_suffixes. unfold date_range.
  apply sorted_pairs_nodup, suffix_pairs_zrange_sorted.
Qed.

Lemma returns_count (min_stay_days max_stay_days : option Z) (d : Z)
  (suffix : list Z) :
  let kept :=
    flat_map
      (fun return_date =>
         if valid_stay min_stay_days max_stay_days
              (Calendar.days_between return_date d)
         then [(d, return_date)] else []) suffix in
  (List.length kept <= List.length suffix)%nat
  /\ (min_stay_days = None -> max_stay_days = None ->
      List.length kept = List.length suffix).
Proof.
  cbv zeta. induction suffix as [|r rest [IH1 IH2]]; [now split|].
  cbn [flat_map]. rewrite length_app. split.
  - destruct (valid_stay min_stay_days max_stay_days
                (Calendar.days_between r d)); cbn [List.length]; lia.
  - intros Hmin Hmax. rewrite (IH2 Hmin Hmax). subst. reflexivity.
Qed.

Lemma pairs_count (min_stay_days max_stay_days : option Z) (n : nat) :
  forall s : Z,
    let count :=
      Z.of_nat (List.length
                  (date_pairs_to_check (zrange s n) min_stay_days
                     max_stay_days)) in
    2 * count <= Z.of_nat n * (Z.of_nat n + 1)
    /\ (min_stay_days = None -> max_stay_days = None ->
        2 * count = Z.of_nat n * (Z.of_nat n + 1)).
Proof.
  cbv zeta. induction n as [|k IH]; intros s.
  - cbn. split; [lia | reflexivity].
  - rewrite date_pairs_to_check_suffixes. cbn [zrange suffix_pairs].
    rewrite <- date_pairs_to_check_suffixes. rewrite length_app.
    destruct (IH (s + 1)) as [I1 I2].
    destruct (returns_count min_stay_days max_stay_days s
                (s :: zrange (s + 1) k)) as [R1 R2].
    cbv zeta in R1, R2. cbn [List.length] in R1, R2.
    rewrite length_zrange in R1, R2. split.
    + nia.
    + intros Hmin Hmax. specialize (I2 Hmin Hmax). specialize (R2 Hmin Hmax).
      rewrite R2. nia.
Qed.

(** X14. A window in order has no date pair to check exactly when the
    bounds exclude every stay it can hold: the minimum stay is longer than
    the window, the maximum stay is negative, or the minimum exceeds the
    maximum. *)
Theorem no_pair_iff_bounds_exclude (start_date end_date : Z)
  (min_stay_days max_stay_days : option Z) :
  start_date <= end_date ->
  date_pairs_to_check (date_range start_date end_date) min_stay_days
    max_stay_days = []
  <-> (exists a, min_stay_days = Some a /\ end_date - start_date < a)
      \/ (exists b, max_stay_days = Some b /\ b < 0)
      \/ (exists a b, min_stay_days = Some a /\ max_stay_days = Some b /\ b < a).
Proof.
  intros Hle. split.
  - intros Hnil.
    assert (Hno : forall d r,
               ~ (start_date <= d /\ d <= r /\ r <= end_date
                  /\ stay_ok min_stay_days max_stay_days (r - d))).
    { intros d r H. apply (in_date_pairs _ _ _ _ d r Hle) in H.
      rewrite Hnil in H. destruct H. }
    destruct min_stay_days as [a|], max_stay_days as [b|].
    + destruct (Z_lt_le_dec (end_date - start_date) a) as [H1|H1];
        [left; now exists a|].
      destruct (Z_lt_le_dec b 0) as [H2|H2]; [right; left; now exists b|].
      destruct (Z_lt_le_dec b a) as [H3|H3]; [right; right; now exists a, b|].
      exfalso. apply (Hno start_date (start_date + Z.max a 0)).
      split; [lia|split; [lia|split; [lia|]]].
      split; intros m [= <-]; lia.
    + destruct (Z_lt_le_dec (end_date - start_date) a) as [H1|H1];
        [left; now exists a|].
      exfalso. apply (Hno start_date (start_date + Z.max a 0)).
      split; [lia|split; [lia|split; [lia|]]].
      split; [intros m [= <-]; lia | discriminate].
    + destruct (Z_lt_le_dec b 0) as [H2|H2]; [right; left; now exists b|].
      exfalso. apply (Hno start_date start_date).
      split; [lia|split; [lia|split; [lia|]]].
      split; [discriminate | intros m [= <-]; lia].
    + exfalso. apply (Hno start_date start_date).
      split; [lia|split; [lia|split; [lia|]]].
      split; discriminate.
  - intros H.
    destruct (date_pairs_to_check (date_range start_date end_date)
                min_stay_days max_stay_days) as [|[d r] rest] eqn:E;
      [reflexivity|].
    assert (Hin : In (d, r)
                    (date_pairs_to_check (date_range start_date end_date)
                       min_stay_days max_stay_days))
      by (rewrite E; now left).
    apply in_date_pairs in Hin; [|exact Hle].
    destruct Hin as (H1 & H2 & H3 & Hmin & Hmax).
    destruct H as [(a & Ha & Hlt)|[(b & Hb & Hlt)|(a & b & Ha & Hb & Hlt)]].
    + specialize (Hmin a Ha). lia.
    + specialize (Hmax b Hb). lia.
    + specialize (Hmin a Ha). specialize (Hmax b Hb). lia.
Qed.

Lemma no_pair_iff_bounds_exclude_witness :
  date_pairs_to_check (date_range 739504 739506) (Some 2) (Some 1) = [].
Proof.
  apply (proj2 (no_pair_iff_bounds_exclude 739504 739506 (Some 2) (Some 1)
                  ltac:(lia))).
  right. right. exists 2, 1. split; [reflexivity|]. split; [reflexivity|lia].
Defined.

(** ** Every pair accounted for *)

Lemma string_app_inj_l (a x y : string) : (a ++ x = a ++ y)%string -> x = y.
Proof.
  induction a as [|c a IH]; cbn; [exact (fun H => H)|].
  intros [= H]. now apply IH.
Qed.

Lemma string_app_inj_length (a a' x y : string) :
  String.length a = String.length a' ->
  (a ++ x = a' ++ y)%string -> a = a' /\ x = y.
Proof.
  revert a'. induction a as [|c a IH]; intros [|c' a'] Hlen H;
    try discriminate Hlen; cbn in *.
  - now split.
  - injection Hlen as Hlen. injection H as -> H.
    destruct (IH a' Hlen H) as [-> ->]. now split.
Qed.

Lemma err_msg_dates (strftime : Z -> string) (d r d' r' : Z) (e e' : exn) :
  String.length (strftime d) = String.length (strftime d') ->
  String.length (strftime r) = String.length (strftime r') ->
  err_msg strftime d r e = err_msg strftime d' r' e' ->
  strftime d = strftime d' /\ strftime r = strftime r'.
Proof.
  intros Ld Lr H. unfold err_msg in H.
  apply string_app_inj_l in H.
  apply string_app_inj_length in H; [|exact Ld]. destruct H as [Hd H].
  apply string_app_inj_l in H.
  apply string_app_inj_length in H; [|exact Lr]. now destruct H as [Hr _].
Qed.

Lemma messages_of_in (strftime : Z -> string) (m : string)
  (po : list ((Z * Z) * outcome (option (list Flight)))) :
  In m (messages_of strftime po) ->
  exists p e, In (p, Raise e) po /\ m = err_msg strftime (fst p) (snd p) e.
Proof.
  unfold messages_of. rewrite in_flat_map.
  intros ([p o] & Hin & Hm). cbn [fst snd] in Hm.
  destruct o as [a|e]; [destruct Hm|].
  destruct Hm as [<-|[]]. now exists p, e.
Qed.

Lemma messages_of_nodup (strftime : Z -> string) (pairs : list (Z * Z)) :
  (forall p q, In p pairs -> In q pairs ->
               String.length (strftime (fst p)) = String.length (strftime (fst q))
               /\ String.length (strftime (snd p))
                  = String.length (strftime (snd q))) ->
  (forall p q, In p pairs -> In q pairs ->
               strftime (fst p) = strftime (fst q) ->
               strftime (snd p) = strftime (snd q) -> p = q) ->
  NoDup pairs ->
  forall outs, NoDup (messages_of strftime (combine pairs outs)).
Proof.
  induction pairs as [|p rest IH]; intros Hlen Hinj Hnd outs; [constructor|].
  destruct outs as [|o os]; [constructor|].
  apply NoDup_cons_iff in Hnd. destruct Hnd as [Hp Hnd].
  assert (IH' : NoDup (messages_of strftime (combine rest os))).
  { apply IH; [| |exact Hnd].
    - intros a b Ha Hb. apply Hlen; now right.
    - intros a b Ha Hb. apply Hinj; now right. }
  unfold messages_of in *. cbn [combine flat_map fst snd].
  destruct o as [a|e]; [exact IH'|]. cbn [app]. constructor; [|exact IH'].
  intros Hin. apply (messages_of_in strftime) in Hin.
  destruct Hin as (q & e' & Hq & Hm).
  apply in_combine_l in Hq.
  destruct (Hlen p q (or_introl eq_refl) (or_intror Hq)) as [Ld Lr].
  apply err_msg_dates in Hm; [|exact Ld|exact Lr]. destruct Hm as [Hd Hr].
  assert (p = q) by (apply Hinj; [now left | now right | exact Hd | exact Hr]).
  subst q. contradiction.
Qed.

Lemma first_occurrences_nodup_id (l seen : list string) :
  NoDup (seen ++ l) -> first_occurrences seen l = l.
Proof.
  revert seen. induction l as [|m rest IH]; intros seen H; [reflexivity|].
  cbn [first_occurrences].
  destruct (existsb (String.eqb m) seen) eqn:E.
  - apply mem_string_in in E. apply NoDup_remove_2 in H.
    exfalso. apply H. apply in_or_app. now left.
  - f_equal. apply IH. now rewrite <- app_assoc.
Qed.

Lemma entries_and_messages (strftime : Z -> string) (sort_cheapest : bool)
  (stops_arg limit : option Z) (pairs : list (Z * Z)) :
  forall outs : list (outcome (option (list Flight))),
    List.length outs = List.length pairs ->
    (List.length (entries_of strftime sort_cheapest stops_arg limit
                    (combine pairs outs))
     + List.length (messages_of strftime (combine pairs outs)))%nat
    = List.length pairs.
Proof.
  unfold entries_of, messages_of.
  induction pairs as [|p rest IH]; intros [|o os] Hlen; try discriminate;
    [reflexivity|].
  injection Hlen as Hlen. specialize (IH os Hlen).
  cbn [combine flat_map fst snd]. rewrite !length_app.
  destruct o as [a|e]; cbn [List.length]; lia.
Qed.

Section RangeScanAccounting.
Variable strptime : string -> option Z.
Variable strftime : Z -> string.
Variable W : Type.
Variable get_flights : query -> W -> outcome (option (list Flight)) * W.
Variables origin destination start_date_str end_date_str : string.
Variables min_stay_days max_stay_days : option Z.
Variable adults : Z.
Variable seat_type : string.
Variable sort_cheapest : bool.
Variables stops_arg limit : option Z.

Let tool :=
  find_all_flights_in_range strptime strftime W get_flights origin
    destination start_date_str end_date_str min_stay_days max_stay_days
    adults seat_type sort_cheapest stops_arg limit.

(** X13. A scan of a window of [n] days makes one provider round per
    enumerated pair: [n (n + 1) / 2] rounds when no stay bound is set, and
    never more when bounds are. *)
Theorem provider_rounds_of_window (st : provider_state W)
  (start_date end_date : Z) :
  strptime start_date_str = Some start_date ->
  strptime end_date_str = Some end_date ->
  Calendar.MINORDINAL <= start_date ->
  start_date <= end_date ->
  end_date < Calendar.MAXORDINAL ->
  let n := window_days start_date end_date in
  let rounds :=
    Z.of_nat (List.length (calls (snd (tool st))))
    - Z.of_nat (List.length (calls st)) in
  2 * rounds <= n * (n + 1)
  /\ (min_stay_days = None -> max_stay_days = None ->
      2 * rounds = n * (n + 1)).
Proof.
  intros Hs He Hmin Hle Hmax n rounds.
  destruct (range_scan_final strptime strftime W get_flights origin
              destination start_date_str end_date_str min_stay_days
              max_stay_days adults seat_type sort_cheapest stops_arg limit
              st _ _ Hs He Hmin Hle Hmax)
    as (final & Hrun & _ & _ & Hcalls & _).
  unfold rounds, tool. rewrite Hrun. cbn [snd]. rewrite Hcalls.
  rewrite length_app, length_map. unfold date_range.
  destruct (pairs_count min_stay_days max_stay_days
              (Z.to_nat (end_date - start_date + 1)) start_date) as [P1 P2].
  cbv zeta in P1, P2. rewrite Z2Nat.id in P1, P2 by lia.
  unfold n, window_days. split; [lia|].
  intros Hmn Hmx. specialize (P2 Hmn Hmx). lia.
Qed.

(** X15. When [strftime] renders the dates of the window on the same
    number of characters and renders different dates of the window
    differently (as it does on a window within the years 1000 to 9999), no
    two pairs share an error message, so every enumerated pair shows in the
    reply exactly once: the result entries and the error messages together
    are as many as the pairs. *)
Theorem every_pair_accounted_for (st : provider_state W)
  (start_date end_date : Z) :
  strptime start_date_str = Some start_date ->
  strptime end_date_str = Some end_date ->
  Calendar.MINORDINAL <= start_date ->
  start_date <= end_date ->
  end_date < Calendar.MAXORDINAL ->
  (forall x y, start_date <= x <= end_date -> start_date <= y <= end_date ->
               String.length (strftime x) = String.length (strftime y)) ->
  (forall x y, start_date <= x <= end_date -> start_date <= y <= end_date ->
               strftime x = strftime y -> x = y) ->
  let pairs :=
    date_pairs_to_check (date_range start_date end_date)
      min_stay_days max_stay_days in
  exists reply,
    fst (tool st) = Done reply
    /\ (List.length (items (field "all_round_trip_options" reply))
        + List.length (items (field "errors_encountered" reply)))%nat
       = List.length pairs.
Proof.
  intros Hs He Hmin Hle Hmax Hlen Hinj pairs.
  destruct (range_scan_final strptime strftime W get_flights origin
              destination start_date_str end_date_str min_stay_days
              max_stay_days adults seat_type sort_cheapest stops_arg limit
              st _ _ Hs He Hmin Hle Hmax)
    as (final & Hrun & H1 & H2 & _ & H5).
  fold pairs in H1, H2, H5. unfold tool. rewrite Hrun. cbn [fst].
  eexists. split; [reflexivity|].
  destruct (items_of_report origin destination start_date_str end_date_str
              final) as (I1 & I2 & _).
  rewrite I1, I2, H1, H2.
  rewrite first_occurrences_nodup_id.
  2:{ cbn [app]. apply messages_of_nodup; [| |apply date_pairs_nodup].
      - intros [d r] [d' r'] Hp Hq. cbn [fst snd].
        apply in_date_pairs in Hp; [|exact Hle].
        apply in_date_pairs in Hq; [|exact Hle].
        split; apply Hlen; lia.
      - intros [d r] [d' r'] Hp Hq Hd Hr. cbn [fst snd] in Hd, Hr.
        apply in_date_pairs in Hp; [|exact Hle].
        apply in_date_pairs in Hq; [|exact Hle].
        f_equal; apply Hinj; try exact Hd; try exact Hr; lia. }
  rewrite <- (entries_and_messages strftime sort_cheapest stops_arg limit
                pairs _ H5) at 1.
  f_equal. unfold errors_encountered.
  destruct (messages_of strftime
              (combine pairs
                 (fst (provider_trace get_flights
                         (map (range_query strftime origin destination adults
                                 seat_type) pairs) (world st)))));
    cbn [nonempty items List.length]; [reflexivity|].
  now rewrite length_map.
Qed.

End RangeScanAccounting.

Lemma fallback_message_iff_no_pairs_witness :
  exists reply,
    fst (find_all_flights_in_range Iso.strptime Iso.strftime Iso.script
           Iso.get_flights "JFK" "MIA" "2025-09-10" "2025-09-12" None None 1
           "economy" false None (Some 10)
           (Iso.start [Raise (mkExn "RuntimeError" false "No flights found")]))
    = Done reply
    /\ top_keys reply = ["all_round_trip_options"; "errors_encountered"].
Proof.
  destruct (fallback_message_iff_no_pairs Iso.strptime Iso.strftime Iso.script
              Iso.get_flights "JFK" "MIA" "2025-09-10" "2025-09-12" None None
              1 "economy" false None (Some 10)
              (Iso.start [Raise (mkExn "RuntimeError" false "No flights found")])
              739504 739506)
    as (reply & H1 & _ & H2);
    [reflexivity | reflexivity | unfold Calendar.MINORDINAL; lia | lia
     | unfold Calendar.MAXORDINAL; lia |].
  exists reply. split; [exact H1|]. apply H2. discriminate.
Defined.

Lemma errors_null_iff_no_failure_witness :
  exists reply,
    fst (find_all_flights_in_range Iso.strptime Iso.strftime Iso.script
           Iso.get_flights "JFK" "MIA" "2025-09-10" "2025-09-12" (Some 2) None
           1 "economy" false None (Some 10) (Iso.start [Return None]))
    = Done reply
    /\ field "errors_encountered" reply = Some JNull.
Proof.
  destruct (errors_null_iff_no_failure Iso.strptime Iso.strftime Iso.script
              Iso.get_flights "JFK" "MIA" "2025-09-10" "2025-09-12" (Some 2)
              None 1 "economy" false None (Some 10) (Iso.start [Return None])
              739504 739506)
    as (reply & H1 & H2);
    [reflexivity | reflexivity | unfold Calendar.MINORDINAL; lia | lia
     | unfold Calendar.MAXORDINAL; lia |].
  exists reply. split; [exact H1|]. apply H2. reflexivity.
Defined.

Lemma provider_rounds_of_window_witness :
  2 * (Z.of_nat
         (List.length
            (calls
               (snd (find_all_flights_in_range Iso.strptime Iso.strftime
                       Iso.script Iso.get_flights "JFK" "MIA" "2025-09-10"
                       "2025-09-12" None None 1 "economy" false None (Some 10)
                       (Iso.start [])))))
       - Z.of_nat (List.length (calls (Iso.start []))))
  = window_days 739504 739506 * (window_days 739504 739506 + 1).
Proof.
  refine (proj2 (provider_rounds_of_window Iso.strptime Iso.strftime Iso.script
                   Iso.get_flights "JFK" "MIA" "2025-09-10" "2025-09-12" None
                   None 1 "economy" false None (Some 10) (Iso.start [])
                   739504 739506 _ _ _ _ _) eq_refl eq_refl);
    [reflexivity | reflexivity | unfold Calendar.MINORDINAL; lia | lia
     | unfold Calendar.MAXORDINAL; lia].
Defined.

Lemma every_pair_accounted_for_witness :
  exists reply,
    fst (find_all_flights_in_range Iso.strptime Iso.strftime Iso.script
           Iso.get_flights "JFK" "MIA" "2025-09-10" "2025-09-12" (Some 1) None
           1 "economy" false None (Some 10)
           (Iso.start [Return None;
                       Raise (mkExn "RuntimeError" false "No flights found");
                       Raise (mkExn "RuntimeError" false "No flights found")]))
    = Done reply
    /\ (List.length (items (field "all_round_trip_options" reply))
        + List.length (items (field "errors_encountered" reply)))%nat
       = 3%nat.
Proof.
  destruct (every_pair_accounted_for Iso.strptime Iso.strftime Iso.script
              Iso.get_flights "JFK" "MIA" "2025-09-10" "2025-09-12" (Some 1)
              None 1 "economy" false None (Some 10)
              (Iso.start [Return None;
                          Raise (mkExn "RuntimeError" false "No flights found");
                          Raise (mkExn "RuntimeError" false "No flights found")])
              739504 739506)
    as (reply & H1 & H2);
    [reflexivity | reflexivity | unfold Calendar.MINORDINAL; lia | lia
     | unfold Calendar.MAXORDINAL; lia | | |].
  - intros x y Hx Hy.
    assert (Cx : x = 739504 \/ x = 739505 \/ x = 739506) by lia.
    assert (Cy : y = 739504 \/ y = 739505 \/ y = 739506) by lia.
    destruct Cx as [-> | [-> | ->]], Cy as [-> | [-> | ->]]; reflexivity.
  - intros x y Hx Hy H.
    assert (Cx : x = 739504 \/ x = 739505 \/ x = 739506) by lia.
    assert (Cy : y = 739504 \/ y = 739505 \/ y = 739506) by lia.
    destruct Cx as [-> | [-> | ->]], Cy as [-> | [-> | ->]];
      first [reflexivity | vm_compute in H; discriminate H].
  - exists reply. split; [exact H1 | exact H2].
Defined.

(** ** The last representable date *)

Section LastDate.
Variable strptime : string -> option Z.
Variable strftime : Z -> string.
Variable W : Type.
Variable get_flights : query -> W -> outcome (option (list Flight)) * W.
Variables origin destination start_date_str end_date_str : string.
Variables min_stay_days max_stay_days : option Z.
Variable adults : Z.
Variable seat_type : string.
Variable sort_cheapest : bool.
Variables stops_arg limit : option Z.

Let tool :=
  find_all_flights_in_range strptime strftime W get_flights origin
    destination start_date_str end_date_str min_stay_days max_stay_days
    adults seat_type sort_cheapest stops_arg limit.

(** X17. On two dates that parse and are in order, the range scan ends with
    an uncaught [OverflowError] exactly when the end date is 9999-12-31;
    it then raises before any provider round is made. *)
Theorem range_scan_raises_iff_last_date (st : provider_state W)
  (start_date end_date : Z) :
  strptime start_date_str = Some start_date ->
  strptime end_date_str = Some end_date ->
  Calendar.MINORDINAL <= start_date ->
  start_date <= end_date ->
  end_date <= Calendar.MAXORDINAL ->
  (fst (tool st) = Uncaught "OverflowError" <-> end_date = Calendar.MAXORDINAL)
  /\ (end_date = Calendar.MAXORDINAL -> snd (tool st) = st).
Proof.
  intros Hs He Hmin Hle Hmax.
  destruct (Z.eq_dec end_date Calendar.MAXORDINAL) as [E|E].
  - assert (R : tool st = (Uncaught "OverflowError", st)).
    { unfold tool, find_all_flights_in_range. rewrite Hs, He.
      destruct (start_date >? end_date) eqn:G;
        [rewrite Z.gtb_ltb in G; apply Z.ltb_lt in G; lia|].
      subst end_date. now rewrite build_date_list_overflow by lia. }
    rewrite R. cbn [fst snd]. tauto.
  - unfold tool.
    rewrite (range_scan_runs strptime strftime W get_flights origin
               destination start_date_str end_date_str min_stay_days
               max_stay_days adults seat_type sort_cheapest stops_arg limit
               st _ _ Hs He Hmin Hle ltac:(lia)).
    cbn [fst snd]. split; [|tauto]. split; [discriminate | tauto].
Qed.

End LastDate.

Lemma range_scan_raises_iff_last_date_witness :
  find_all_flights_in_range Iso.strptime Iso.strftime Iso.script
    Iso.get_flights "JFK" "MIA" "9999-12-30" "9999-12-31" None None 1
    "economy" false None (Some 10) (Iso.start [Return None])
  = (Uncaught "OverflowError", Iso.start [Return None]).
Proof.
  destruct (range_scan_raises_iff_last_date Iso.strptime Iso.strftime
              Iso.script Iso.get_flights "JFK" "MIA" "9999-12-30" "9999-12-31"
              None None 1 "economy" false None (Some 10)
              (Iso.start [Return None]) 3652058 3652059)
    as (H1 & H2);
    [reflexivity | reflexivity | unfold Calendar.MINORDINAL; lia | lia
     | unfold Calendar.MAXORDINAL; lia |].
  apply injective_projections.
  - apply H1. reflexivity.
  - apply H2. reflexivity.
Defined.
